(** * Blog backend: posts, comments and the admin bootstrap script

    A shallow embedding of the Express route handlers of the comments
    router and the posts router, and of the [createAdmin] script, over an
    explicit model of the three MongoDB collections.

    Conventions of the embedding.
    - A JavaScript string is a [string]; a request field that may be
      [undefined] is an [option string].
    - An [ObjectId] is identified with the hexadecimal string that
      [toString()] yields, so that [a.toString() === b.toString()] is
      [String.eqb a b].  The handlers of the modules [CommentsRouter] and
      [PostsRouter] are entered with identifiers that are ObjectIds; the
      module [Http] puts in front of them the cast that Mongoose applies
      to the string of the URL or of the body, with its error path.
    - The [posts] and [comments] collections are finite maps from [_id] to
      document; the [users] collection is a list in natural order, because
      [findOne] returns the first match.
    - A handler is a function from the request data and the store to a
      response and the store after the request.  The identifier of a new
      document and the clock are inputs of the handler.  A rejected
      [save()] is the [catch] branch of the handler (status 500, exit code
      1 in the script); the store itself is taken to be reachable. *)

From stdpp Require Import gmap strings list fin_maps sorting pretty.

(** ** JavaScript strings *)

Module JS.

(** [!!v] for a value that is [undefined] or a string. *)
Definition truthy (v : option string) : bool :=
  match v with
  | Some s => negb (String.eqb s "")
  | None => false
  end.

(** [!v] *)
Definition falsy (v : option string) : bool := negb (truthy v).

(** The string behind a value already known to be truthy. *)
Definition str (v : option string) : string := default "" v.

Fixpoint skip (n : nat) (s : string) : string :=
  match n, s with
  | O, _ => s
  | S _, EmptyString => EmptyString
  | S n', String _ s' => skip n' s'
  end.

(** [s.replace(pat, rep)] with a string pattern: the first occurrence of
    [pat] is replaced, the rest of [s] is kept. *)
Fixpoint replace (pat rep s : string) : string :=
  if String.prefix pat s then rep +:+ skip (String.length pat) s
  else match s with
       | EmptyString => EmptyString
       | String c s' => String c (replace pat rep s')
       end.

(** [s.substring(a, b)]: the characters from [min a b] up to, not
    including, [max a b], clipped to the length of [s]. *)
Definition substring (a b : nat) (s : string) : string :=
  String.substring (a `min` b) ((a `max` b) - (a `min` b)) s.

(** White space removed by [String.prototype.trim], in the one-byte
    range: TAB, LF, VT, FF, CR, SP and NBSP. *)
Definition is_space (c : Ascii.ascii) : bool :=
  let n := Ascii.nat_of_ascii c in
  (Nat.leb 9 n && Nat.leb n 13) || Nat.eqb n 32 || Nat.eqb n 160.

Fixpoint trimStart (s : string) : string :=
  match s with
  | EmptyString => EmptyString
  | String c s' => if is_space c then trimStart s' else s
  end.

Fixpoint trimEnd (s : string) : string :=
  match s with
  | EmptyString => EmptyString
  | String c s' =>
      let r := trimEnd s' in
      if is_space c && String.eqb r "" then EmptyString else String c r
  end.

Definition trim (s : string) : string := trimEnd (trimStart s).

End JS.

(** ** Documents *)

Abbreviation ObjectId := string (only parsing).
Abbreviation Date := N (only parsing).

Inductive Role := RoleUser | RoleAdmin.

#[global] Instance Role_eq_dec : EqDecision Role.
Proof. solve_decision. Defined.

(** Modelled from the spec: the User schema (models/User.js is not among
    the sources): an identity with [username], [email] (unique),
    [password] and [role] in {user, admin}. *)
Module User.
Record t := mk
  { _id : ObjectId;
    username : string;
    email : string;
    password : string;
    role : Role }.

#[global] Instance eq_dec : EqDecision t.
Proof. solve_decision. Defined.

Definition isAdmin (u : t) : bool := bool_decide (role u = RoleAdmin).
End User.

(** Modelled from the spec: the Post schema (models/Post.js is not among
    the sources): [title], [content], optional [image] reference (the
    empty string when there is none), [author], denormalized
    [authorName], and the two timestamps.  The fields are the ones the
    posts router reads and writes; no setter or validator of the schema
    is assumed on them. *)
Module Post.
Record t := mk
  { _id : ObjectId;
    title : string;
    content : string;
    image : string;
    author : ObjectId;
    authorName : string;
    createdAt : Date;
    updatedAt : Date }.

#[global] Instance eq_dec : EqDecision t.
Proof. solve_decision. Defined.

(** [sort({ createdAt: -1 })] *)
Definition newer (a b : t) : Prop := (createdAt b ≤ createdAt a)%N.

#[global] Instance newer_dec : RelDecision newer.
Proof. intros a b. unfold newer. apply _. Defined.
End Post.

(** models/Comment.js *)
Module Comment.
Record t := mk
  { _id : ObjectId;
    content : string;
    post : ObjectId;
    author : ObjectId;
    authorName : string;
    createdAt : Date;
    updatedAt : Date }.

#[global] Instance eq_dec : EqDecision t.
Proof. solve_decision. Defined.

(** The schema's [trim: true] setter on [content]. *)
Definition setContent (s : string) (c : t) : t :=
  mk (_id c) (JS.trim s) (post c) (author c) (authorName c)
     (createdAt c) (updatedAt c).

(** [required: true] on a String path rejects the empty string; the two
    ObjectId paths are always set by the router. *)
Definition validate (c : t) : bool :=
  negb (String.eqb (content c) "") && negb (String.eqb (authorName c) "").

Definition touch (now : Date) (c : t) : t :=
  mk (_id c) (content c) (post c) (author c) (authorName c)
     (createdAt c) now.

Definition newer (a b : t) : Prop := (createdAt b ≤ createdAt a)%N.

#[global] Instance newer_dec : RelDecision newer.
Proof. intros a b. unfold newer. apply _. Defined.
End Comment.

(** ** The store *)

Record Store := mkStore
  { users : list User.t;
    posts : gmap string Post.t;
    comments : gmap string Comment.t }.

Definition setPosts (ps : gmap string Post.t) (st : Store) : Store :=
  mkStore (users st) ps (comments st).

Definition setComments (cs : gmap string Comment.t) (st : Store) : Store :=
  mkStore (users st) (posts st) cs.

Definition setUsers (us : list User.t) (st : Store) : Store :=
  mkStore us (posts st) (comments st).

(** [populate('author', 'username')]: the reference is replaced by the
    [_id] and [username] of the user it names, or by [null]. *)
Record AuthorRef := mkRef { ref_id : ObjectId; ref_username : string }.

Definition findUserById (id : ObjectId) (us : list User.t) : option User.t :=
  List.find (λ u, String.eqb (User._id u) id) us.

Definition populate (us : list User.t) (a : ObjectId) : option AuthorRef :=
  (λ u, mkRef (User._id u) (User.username u)) <$> findUserById a us.

(** ** Responses *)

(** What an anonymous or an authenticated reader gets for one post in the
    listing.  [v_author = None] is a JSON object without the [author] key;
    [Some a] is the key with the populated value [a] (possibly [null]). *)
Record PostView := mkView
  { v_id : ObjectId;
    v_title : string;
    v_content : string;
    v_image : string;
    v_author : option (option AuthorRef);
    v_authorName : string;
    v_createdAt : Date;
    v_updatedAt : Date }.

Inductive Body :=
  | Message (message : string)
  | PostList (l : list PostView)
  | PostDoc (p : Post.t)
  | PostPopulated (p : Post.t) (a : option AuthorRef)
  | CommentList (l : list (Comment.t * option AuthorRef))
  | CommentPopulated (c : Comment.t) (a : option AuthorRef).

Record Response := mkResponse { status : nat; body : Body }.

(** The error taxonomy, by status code. *)
Definition OK : nat := 200.
Definition Created : nat := 201.
Definition ValidationError : nat := 400.
Definition AuthenticationRequired : nat := 401.
Definition Forbidden : nat := 403.
Definition NotFound : nat := 404.
Definition PersistenceError : nat := 500.

Definition json (b : Body) : Response := mkResponse OK b.
Definition fail (code : nat) (m : string) : Response := mkResponse code (Message m).

(** ** Comments router *)

Module CommentsRouter.

(** [GET /post/:postId], once the postId has been cast to an ObjectId
    ([Http.listComments] has the cast). *)
Definition listComments (postId : ObjectId) (st : Store) : Response * Store :=
  let found :=
    filter (λ c, Comment.post c = postId) (map_to_list (comments st)).*2 in
  let sorted := merge_sort Comment.newer found in
  (json (CommentList
           ((λ c, (c, populate (users st) (Comment.author c))) <$> sorted)),
   st).

(** [POST /], after [authenticate] has set [req.user], for a postId that
    is written as the ObjectId it denotes ([Http.createComment] has the
    cast of any other string). *)
Definition createComment (user : User.t) (content postId : option string)
    (newId : ObjectId) (now : Date) (st : Store) : Response * Store :=
  if JS.falsy content || JS.falsy postId then
    (fail ValidationError "Content and post ID are required", st)
  else
    match posts st !! JS.str postId with
    | None => (fail NotFound "Post not found", st)
    | Some _ =>
        let comment :=
          Comment.setContent (JS.str content)
            (Comment.mk newId "" (JS.str postId) (User._id user)
                        (User.username user) now now) in
        if Comment.validate comment
           && bool_decide (comments st !! newId = None) then
          (mkResponse Created
             (CommentPopulated comment (populate (users st) (Comment.author comment))),
           setComments (<[newId := comment]> (comments st)) st)
        else (fail PersistenceError "Error creating comment", st)
    end.

(** [comment.content = content; await comment.save()]: an [undefined]
    or blank content fails the [required] validator; an unmodified
    document is not written. *)
Definition saveContent (id : ObjectId) (comment : Comment.t)
    (content : option string) (now : Date) (st : Store)
    : option (Comment.t * Store) :=
  match content with
  | None => None
  | Some s =>
      let edited := Comment.setContent s comment in
      if Comment.validate edited then
        if bool_decide (edited = comment) then Some (comment, st)
        else
          let saved := Comment.touch now edited in
          Some (saved, setComments (<[id := saved]> (comments st)) st)
      else None
  end.

(** [PUT /:id], after [authenticate] and once the id has been cast to an
    ObjectId ([Http.updateComment] has the cast). *)
Definition updateComment (user : User.t) (id : ObjectId)
    (content : option string) (now : Date) (st : Store) : Response * Store :=
  match comments st !! id with
  | None => (fail NotFound "Comment not found", st)
  | Some comment =>
      if negb (String.eqb (Comment.author comment) (User._id user)) then
        (fail Forbidden "You can only edit your own comments", st)
      else
        match saveContent id comment content now st with
        | Some (saved, st') =>
            (json (CommentPopulated saved
                     (populate (users st') (Comment.author saved))), st')
        | None => (fail PersistenceError "Error updating comment", st)
        end
  end.

(** [DELETE /:id], after [authenticate] and once the id has been cast to
    an ObjectId ([Http.deleteComment] has the cast). *)
Definition deleteComment (user : User.t) (id : ObjectId) (st : Store)
    : Response * Store :=
  match comments st !! id with
  | None => (fail NotFound "Comment not found", st)
  | Some comment =>
      let isOwner := String.eqb (Comment.author comment) (User._id user) in
      let isAdmin := User.isAdmin user in
      if negb isOwner && negb isAdmin then
        (fail Forbidden "Access denied", st)
      else
        (json (Message "Comment deleted successfully"),
         setComments (delete id (comments st)) st)
  end.

End CommentsRouter.

(** ** Posts router *)

Module PostsRouter.

(** The object built for an authenticated reader. *)
Definition fullView (us : list User.t) (post : Post.t) : PostView :=
  mkView (Post._id post) (Post.title post) (Post.content post)
         (Post.image post) (Some (populate us (Post.author post)))
         (Post.authorName post) (Post.createdAt post) (Post.updatedAt post).

(** The object built for the public. *)
Definition limitedView (post : Post.t) : PostView :=
  mkView (Post._id post) (Post.title post)
         (JS.substring 0 150 (Post.content post) +:+ "...")
         (Post.image post) None
         (Post.authorName post) (Post.createdAt post) (Post.updatedAt post).

(** [req.header('Authorization')?.replace('Bearer ', '')] *)
Definition bearerToken (authorization : option string) : option string :=
  JS.replace "Bearer " "" <$> authorization.

(** [Post.find().populate('author', 'username').sort({ createdAt: -1 })];
    the populated author is computed where the view is built. *)
Definition findSorted (st : Store) : list Post.t :=
  merge_sort Post.newer (map_to_list (posts st)).*2.

(** [GET /]: no middleware in front of the handler. *)
Definition listPosts (authorization : option string) (st : Store)
    : Response * Store :=
  let token := bearerToken authorization in
  let isAuthenticated := JS.truthy token in
  let found := findSorted st in
  let postsData :=
    (λ post, if isAuthenticated then fullView (users st) post
             else limitedView post) <$> found in
  (json (PostList postsData), st).

(** [GET /:id], after [authenticate] and once the id has been cast to an
    ObjectId ([Http.getPost] has the cast). *)
Definition getPost (user : User.t) (id : ObjectId) (st : Store)
    : Response * Store :=
  match posts st !! id with
  | None => (fail NotFound "Post not found", st)
  | Some post =>
      (json (PostPopulated post (populate (users st) (Post.author post))), st)
  end.

(** [req.file ? `/uploads/${req.file.filename}` : ''] *)
Definition uploadPath (filename : string) : string := "/uploads/" +:+ filename.

(** [POST /], after [authenticate] and [upload.single('image')];
    [file] is [req.file.filename] when a file was stored. *)
Definition createPost (user : User.t) (title content file : option string)
    (newId : ObjectId) (now : Date) (st : Store) : Response * Store :=
  if JS.falsy title || JS.falsy content then
    (fail ValidationError "Title and content are required", st)
  else
    let image := match file with
                 | Some filename => uploadPath filename
                 | None => ""
                 end in
    let post := Post.mk newId (JS.str title) (JS.str content) image
                        (User._id user) (User.username user) now now in
    if bool_decide (posts st !! newId = None) then
      (mkResponse Created (PostDoc post),
       setPosts (<[newId := post]> (posts st)) st)
    else (fail PersistenceError "Error creating post", st).

Definition setTitle (s : string) (p : Post.t) : Post.t :=
  Post.mk (Post._id p) s (Post.content p) (Post.image p) (Post.author p)
          (Post.authorName p) (Post.createdAt p) (Post.updatedAt p).

Definition setContent (s : string) (p : Post.t) : Post.t :=
  Post.mk (Post._id p) (Post.title p) s (Post.image p) (Post.author p)
          (Post.authorName p) (Post.createdAt p) (Post.updatedAt p).

Definition setImage (s : string) (p : Post.t) : Post.t :=
  Post.mk (Post._id p) (Post.title p) (Post.content p) s (Post.author p)
          (Post.authorName p) (Post.createdAt p) (Post.updatedAt p).

Definition touch (now : Date) (p : Post.t) : Post.t :=
  Post.mk (Post._id p) (Post.title p) (Post.content p) (Post.image p)
          (Post.author p) (Post.authorName p) (Post.createdAt p) now.

(** The three conditional assignments of [PUT /:id]. *)
Definition assignFields (title content file : option string) (post : Post.t)
    : Post.t :=
  let p1 := if JS.truthy title then setTitle (JS.str title) post else post in
  let p2 := if JS.truthy content then setContent (JS.str content) p1 else p1 in
  match file with
  | Some filename => setImage (uploadPath filename) p2
  | None => p2
  end.

(** [await post.save()] on a loaded document: nothing is written when no
    path was modified, otherwise [updatedAt] is refreshed. *)
Definition savePost (id : ObjectId) (before edited : Post.t) (now : Date)
    (st : Store) : Post.t * Store :=
  if bool_decide (edited = before) then (before, st)
  else
    let saved := touch now edited in
    (saved, setPosts (<[id := saved]> (posts st)) st).

(** [PUT /:id], after [authenticate] and [upload.single('image')], and
    once the id has been cast to an ObjectId ([Http.updatePost] has the
    cast). *)
Definition updatePost (user : User.t) (id : ObjectId)
    (title content file : option string) (now : Date) (st : Store)
    : Response * Store :=
  match posts st !! id with
  | None => (fail NotFound "Post not found", st)
  | Some post =>
      let isOwner := String.eqb (Post.author post) (User._id user) in
      let isUserAdmin := User.isAdmin user in
      if negb isOwner && negb isUserAdmin then
        (fail Forbidden "You can only edit your own posts", st)
      else
        let '(saved, st') :=
          savePost id post (assignFields title content file post) now st in
        (json (PostDoc saved), st')
  end.

(** [DELETE /:id], after [authenticate] and once the id has been cast to
    an ObjectId ([Http.deletePost] has the cast). *)
Definition deletePost (user : User.t) (id : ObjectId) (st : Store)
    : Response * Store :=
  match posts st !! id with
  | None => (fail NotFound "Post not found", st)
  | Some post =>
      let isOwner := String.eqb (Post.author post) (User._id user) in
      let isUserAdmin := User.isAdmin user in
      if negb isOwner && negb isUserAdmin then
        (fail Forbidden "You can only delete your own posts", st)
      else
        (json (Message "Post deleted successfully"),
         setPosts (delete id (posts st)) st)
  end.

End PostsRouter.

(** ** The upload middleware of the posts router *)

Module JSRegExp.

(** [s] has an occurrence of the literal [w]. *)
Fixpoint contains (w s : string) : bool :=
  String.prefix w s
  || match s with
     | EmptyString => false
     | String _ s' => contains w s'
     end.

(** [/jpeg|jpg|png|gif/.test(s)]: the pattern has no anchor and no flag,
    so it matches when one of the four words occurs somewhere in [s]. *)
Definition allowedTypes (s : string) : bool :=
  contains "jpeg" s || contains "jpg" s || contains "png" s || contains "gif" s.

End JSRegExp.

(** [String.prototype.toLowerCase] on the one-byte range: A-Z and the
    accented capitals 0xC0-0xDE, without the sign 0xD7. *)
Definition lowerChar (c : Ascii.ascii) : Ascii.ascii :=
  let n := Ascii.nat_of_ascii c in
  if (Nat.leb 65 n && Nat.leb n 90)
     || (Nat.leb 192 n && Nat.leb n 222 && negb (Nat.eqb n 215))
  then Ascii.ascii_of_nat (n + 32) else c.

Fixpoint toLowerCase (s : string) : string :=
  match s with
  | EmptyString => EmptyString
  | String c s' => String (lowerChar c) (toLowerCase s')
  end.

Inductive FilterResult :=
  | Accept
  | Reject (message : string).

Section Upload.

(** [path.extname], of Node's path module. *)
Variable extname : string → string.

(** The [fileFilter] given to multer. *)
Definition fileFilter (originalname mimetype : string) : FilterResult :=
  let extnameOk := JSRegExp.allowedTypes (toLowerCase (extname originalname)) in
  let mimetypeOk := JSRegExp.allowedTypes mimetype in
  if mimetypeOk && extnameOk then Accept
  else Reject "Only image files are allowed".

(** The [filename] function of the disk storage: [now] is [Date.now()]
    and [draw] is [Math.round(Math.random() * 1E9)], two non-negative
    integers, which JavaScript writes in decimal when it concatenates
    them with a string. *)
Definition filename (fieldname originalname : string) (now draw : N) : string :=
  let uniqueSuffix := pretty now +:+ "-" +:+ pretty draw in
  fieldname +:+ "-" +:+ uniqueSuffix +:+ extname originalname.

End Upload.

(** ** The admin bootstrap script *)

Record Exit := mkExit { exitCode : nat; console : string }.

Section Bootstrap.

(** The password is hashed outside the script, by the User model. *)
Variable hashPassword : string → string.

(** [User.findOne({ $or: [{ email }, { username }] })] *)
Definition matchesIdentity (email username : string) (u : User.t) : bool :=
  String.eqb (User.email u) email || String.eqb (User.username u) username.

Definition findOne (email username : string) (us : list User.t)
    : option User.t :=
  List.find (matchesIdentity email username) us.

Definition promote (u : User.t) : User.t :=
  User.mk (User._id u) (User.username u) (User.email u) (User.password u)
          RoleAdmin.

(** [existingUser.save()]: the document with that [_id] is replaced. *)
Definition replaceUser (u : User.t) (us : list User.t) : list User.t :=
  List.map (λ v, if String.eqb (User._id v) (User._id u) then u else v) us.

(** [admin.save()] of a new document: rejected on a duplicate [_id] or a
    duplicate [email] (the unique index), appended otherwise. *)
Definition insertUser (u : User.t) (us : list User.t) : option (list User.t) :=
  if List.existsb (λ v, String.eqb (User._id v) (User._id u)
                        || String.eqb (User.email v) (User.email u)) us
  then None
  else Some (us ++ [u]).

(** [createAdmin], with [argv = process.argv] and the connection
    established.  The result is the exit code, the last line written to
    the console, and the store when the process ends. *)
Definition createAdmin (argv : list string) (newId : ObjectId) (st : Store)
    : Exit * Store :=
  let email := argv !! 2 in
  let username := argv !! 3 in
  let password := argv !! 4 in
  if JS.falsy email || JS.falsy username || JS.falsy password then
    (mkExit 1 "Usage: node createAdmin.js <email> <username> <password>", st)
  else
    match findOne (JS.str email) (JS.str username) (users st) with
    | Some existingUser =>
        if User.isAdmin existingUser then
          (mkExit 0 "User already exists and is already an admin", st)
        else
          (mkExit 0 ("User updated to admin: " +:+ JS.str username),
           setUsers (replaceUser (promote existingUser) (users st)) st)
    | None =>
        let admin := User.mk newId (JS.str username) (JS.str email)
                             (hashPassword (JS.str password)) RoleAdmin in
        match insertUser admin (users st) with
        | Some us =>
            (mkExit 0 ("Admin user created successfully: " +:+ JS.str username),
             setUsers us st)
        | None => (mkExit 1 "Error creating admin:", st)
        end
    end.

End Bootstrap.

(** ** The service as a whole *)

Inductive Request :=
  | GET_posts (authorization : option string)
  | GET_post (authorization : option string) (id : ObjectId)
  | POST_post (authorization : option string)
      (title content file : option string) (newId : ObjectId) (now : Date)
  | PUT_post (authorization : option string) (id : ObjectId)
      (title content file : option string) (now : Date)
  | DELETE_post (authorization : option string) (id : ObjectId)
  | GET_comments (postId : ObjectId)
  | POST_comment (authorization : option string)
      (content postId : option string) (newId : ObjectId) (now : Date)
  | PUT_comment (authorization : option string) (id : ObjectId)
      (content : option string) (now : Date)
  | DELETE_comment (authorization : option string) (id : ObjectId).

Inductive Operation :=
  | Http (r : Request)
  | AdminBootstrap (argv : list string) (newId : ObjectId).

Section Service.

(** Modelled from the spec: the credential check of the [authenticate]
    middleware (middleware/auth.js is not among the sources): a valid
    bearer credential resolves to a live User, anything else is
    unauthenticated.  [verifyToken] is the signature check, from a token
    to the identifier it was issued for. *)
Variable verifyToken : string → option ObjectId.

(** The text of the 401 answer is the middleware's own. *)
Variable deniedMessage : string.

Definition authenticate (authorization : option string) (st : Store)
    : option User.t :=
  let token := PostsRouter.bearerToken authorization in
  if JS.falsy token then None
  else uid ← verifyToken (JS.str token); findUserById uid (users st).

Definition guarded (authorization : option string) (st : Store)
    (next : User.t → Response * Store) : Response * Store :=
  match authenticate authorization st with
  | Some user => next user
  | None => (fail AuthenticationRequired deniedMessage, st)
  end.

Definition handle (r : Request) (st : Store) : Response * Store :=
  match r with
  | GET_posts authorization => PostsRouter.listPosts authorization st
  | GET_post authorization id =>
      guarded authorization st (λ user, PostsRouter.getPost user id st)
  | POST_post authorization title content file newId now =>
      guarded authorization st
        (λ user, PostsRouter.createPost user title content file newId now st)
  | PUT_post authorization id title content file now =>
      guarded authorization st
        (λ user, PostsRouter.updatePost user id title content file now st)
  | DELETE_post authorization id =>
      guarded authorization st (λ user, PostsRouter.deletePost user id st)
  | GET_comments postId => CommentsRouter.listComments postId st
  | POST_comment authorization content postId newId now =>
      guarded authorization st
        (λ user, CommentsRouter.createComment user content postId newId now st)
  | PUT_comment authorization id content now =>
      guarded authorization st
        (λ user, CommentsRouter.updateComment user id content now st)
  | DELETE_comment authorization id =>
      guarded authorization st (λ user, CommentsRouter.deleteComment user id st)
  end.

Variable hashPassword : string → string.

Definition step (op : Operation) (st : Store) : Store :=
  match op with
  | Http r => (handle r st).2
  | AdminBootstrap argv newId => (createAdmin hashPassword argv newId st).2
  end.

Definition run (ops : list Operation) (st : Store) : Store :=
  foldl (λ s op, step op s) st ops.

End Service.

(** ** The routes on the identifiers as they arrive

    An identifier in the URL or in the body is a string.  Mongoose casts
    it to an ObjectId when it builds the query: on a string that is not
    an ObjectId the query throws (CastError) and the [catch] of the
    handler answers 500; every spelling of an ObjectId, such as its
    upper-case hexadecimal form, is cast to the one ObjectId it denotes.
    [castObjectId] is that cast; it belongs to Mongoose and is a
    parameter here. *)

Module Http.
Section Cast.

Variable castObjectId : string → option ObjectId.

(** [GET /post/:postId] of the comments router:
    [Comment.find({ post: req.params.postId })] *)
Definition listComments (postId : string) (st : Store) : Response * Store :=
  match castObjectId postId with
  | Some pid => CommentsRouter.listComments pid st
  | None => (fail PersistenceError "Error fetching comments", st)
  end.

(** [POST /] of the comments router: [Post.findById(postId)] comes after
    the test of the two fields and before the comment is built. *)
Definition createComment (user : User.t) (content postId : option string)
    (newId : ObjectId) (now : Date) (st : Store) : Response * Store :=
  if JS.falsy content || JS.falsy postId then
    (fail ValidationError "Content and post ID are required", st)
  else
    match castObjectId (JS.str postId) with
    | None => (fail PersistenceError "Error creating comment", st)
    | Some pid =>
        match posts st !! pid with
        | None => (fail NotFound "Post not found", st)
        | Some _ =>
            let comment :=
              Comment.setContent (JS.str content)
                (Comment.mk newId "" pid (User._id user)
                            (User.username user) now now) in
            if Comment.validate comment
               && bool_decide (comments st !! newId = None) then
              (mkResponse Created
                 (CommentPopulated comment
                    (populate (users st) (Comment.author comment))),
               setComments (<[newId := comment]> (comments st)) st)
            else (fail PersistenceError "Error creating comment", st)
        end
    end.

(** [PUT /:id] of the comments router: [Comment.findById(req.params.id)] *)
Definition updateComment (user : User.t) (id : string)
    (content : option string) (now : Date) (st : Store) : Response * Store :=
  match castObjectId id with
  | Some oid => CommentsRouter.updateComment user oid content now st
  | None => (fail PersistenceError "Error updating comment", st)
  end.

(** [DELETE /:id] of the comments router *)
Definition deleteComment (user : User.t) (id : string) (st : Store)
    : Response * Store :=
  match castObjectId id with
  | Some oid => CommentsRouter.deleteComment user oid st
  | None => (fail PersistenceError "Error deleting comment", st)
  end.

(** [GET /:id] of the posts router: [Post.findById(req.params.id)] *)
Definition getPost (user : User.t) (id : string) (st : Store)
    : Response * Store :=
  match castObjectId id with
  | Some oid => PostsRouter.getPost user oid st
  | None => (fail PersistenceError "Error fetching post", st)
  end.

(** [PUT /:id] of the posts router *)
Definition updatePost (user : User.t) (id : string)
    (title content file : option string) (now : Date) (st : Store)
    : Response * Store :=
  match castObjectId id with
  | Some oid => PostsRouter.updatePost user oid title content file now st
  | None => (fail PersistenceError "Error updating post", st)
  end.

(** [DELETE /:id] of the posts router *)
Definition deletePost (user : User.t) (id : string) (st : Store)
    : Response * Store :=
  match castObjectId id with
  | Some oid => PostsRouter.deletePost user oid st
  | None => (fail PersistenceError "Error deleting post", st)
  end.

End Cast.
End Http.

(** ** A small population, used to run the handlers *)

Module Sample.

Definition alice : User.t :=
  User.mk "64b0f1a2c3d4e5f601020301" "alice" "alice@example.org" "$2b$10$a" RoleUser.
Definition bob : User.t :=
  User.mk "64b0f1a2c3d4e5f601020302" "bob" "bob@example.org" "$2b$10$b" RoleUser.
Definition root : User.t :=
  User.mk "64b0f1a2c3d4e5f601020303" "root" "root@example.org" "$2b$10$r" RoleAdmin.

Fixpoint repeatChar (c : Ascii.ascii) (n : nat) : string :=
  match n with
  | O => EmptyString
  | S n' => String c (repeatChar c n')
  end.

(** "Hi" / "World", by alice. *)
Definition hello : Post.t :=
  Post.mk "64b0f1a2c3d4e5f6010203a1" "Hi" "World" ""
          (User._id alice) "alice" 1000 1000.

(** A post of 200 characters, by alice. *)
Definition essay : Post.t :=
  Post.mk "64b0f1a2c3d4e5f6010203a2" "Essay" (repeatChar (Ascii.ascii_of_nat 120) 200) ""
          (User._id alice) "alice" 2000 2000.

(** A comment by bob on [hello]. *)
Definition remark : Comment.t :=
  Comment.mk "64b0f1a2c3d4e5f6010203c1" "Nice" (Post._id hello)
             (User._id bob) "bob" 3000 3000.

Definition store : Store :=
  mkStore [alice; bob; root]
          (<[Post._id essay := essay]> (<[Post._id hello := hello]> ∅))
          (<[Comment._id remark := remark]> ∅).

(** A store with the single post [hello]. *)
Definition small : Store :=
  mkStore [alice; bob; root] (<[Post._id hello := hello]> ∅) ∅.

(** A token check that knows one session, alice's. *)
Definition verifyToken (token : string) : option ObjectId :=
  if String.eqb token "alice-session" then Some (User._id alice) else None.

Definition hashPassword (password : string) : string := "$2b$10$" +:+ password.

(** The part of a plain file name from its last dot on, which is what
    [path.extname] returns for a name such as "photo.PNG". *)
Fixpoint fromLastDot (name : string) : option string :=
  match name with
  | EmptyString => None
  | String c rest =>
      match fromLastDot rest with
      | Some ext => Some ext
      | None => if Ascii.eqb c (Ascii.ascii_of_nat 46) then Some name else None
      end
  end.

Definition extname (name : string) : string := default "" (fromLastDot name).

(** The cast of a string of 24 hexadecimal digits, in either case, to
    the ObjectId it spells; any other string is refused. *)
Definition isHex (c : Ascii.ascii) : bool :=
  let n := Ascii.nat_of_ascii c in
  (Nat.leb 48 n && Nat.leb n 57) || (Nat.leb 65 n && Nat.leb n 70)
  || (Nat.leb 97 n && Nat.leb n 102).

Fixpoint allHex (s : string) : bool :=
  match s with
  | EmptyString => true
  | String c s' => isHex c && allHex s'
  end.

Definition castObjectId (s : string) : option ObjectId :=
  if Nat.eqb (String.length s) 24 && allHex s then Some (toLowerCase s)
  else None.

End Sample.

(** The posts in a listing response. *)
Definition listing (r : Response) : list PostView :=
  match body r with
  | PostList l => l
  | _ => []
  end.

(** A request value that is missing or the empty string. *)
Definition empty (v : option string) : Prop := v = None ∨ v = Some "".

(** Every post present before and after keeps its author. *)
Definition authorStable (st st' : Store) : Prop :=
  ∀ id p p', posts st !! id = Some p → posts st' !! id = Some p' →
             Post.author p' = Post.author p.

(** The key of every stored post and comment is its [_id]. *)
Definition keysMatch (st : Store) : Prop :=
  (∀ id p, posts st !! id = Some p → Post._id p = id) ∧
  (∀ id c, comments st !! id = Some c → Comment._id c = id).

(** Every stored comment passes the schema: its content is trimmed and
    neither its content nor its author name is empty. *)
Definition commentsValid (st : Store) : Prop :=
  ∀ id c, comments st !! id = Some c →
          Comment.validate c = true ∧ JS.trim (Comment.content c) = Comment.content c.

(** Every comment present before and after keeps what identifies it. *)
Definition commentStable (st st' : Store) : Prop :=
  ∀ id c c', comments st !! id = Some c → comments st' !! id = Some c' →
             Comment._id c' = Comment._id c ∧
             Comment.post c' = Comment.post c ∧
             Comment.author c' = Comment.author c ∧
             Comment.authorName c' = Comment.authorName c ∧
             Comment.createdAt c' = Comment.createdAt c.

(** A user without the role. *)
Definition identity (u : User.t) : string * string * string * string :=
  (User._id u, User.username u, User.email u, User.password u).

(** The comments in a listing response. *)
Definition commentListing (r : Response) : list (Comment.t * option AuthorRef) :=
  match body r with
  | CommentList l => l
  | _ => []
  end.

(** The four words of the type filter. *)
Definition imageWords : list string := ["jpeg"; "jpg"; "png"; "gif"].

(** A string of decimal digits. *)
Definition isDigit (c : Ascii.ascii) : bool :=
  let n := Ascii.nat_of_ascii c in Nat.leb 48 n && Nat.leb n 57.

Fixpoint allDigits (s : string) : bool :=
  match s with
  | EmptyString => true
  | String c s' => isDigit c && allDigits s'
  end.

(** Every stored post has a title and a content. *)
Definition postsValid (st : Store) : Prop :=
  ∀ id p, posts st !! id = Some p → Post.title p ≠ "" ∧ Post.content p ≠ "".

(** A relation between the store before and after that every handler of
    the two routers satisfies, whoever the authenticated user is and
    whatever the inputs are. *)
Definition keptByRoutes (R : Store → Store → Prop) : Prop :=
  (∀ authorization st, R st (PostsRouter.listPosts authorization st).2) ∧
  (∀ user id st, R st (PostsRouter.getPost user id st).2) ∧
  (∀ user title content file newId now st,
     R st (PostsRouter.createPost user title content file newId now st).2) ∧
  (∀ user id title content file now st,
     R st (PostsRouter.updatePost user id title content file now st).2) ∧
  (∀ user id st, R st (PostsRouter.deletePost user id st).2) ∧
  (∀ postId st, R st (CommentsRouter.listComments postId st).2) ∧
  (∀ user content postId newId now st,
     R st (CommentsRouter.createComment user content postId newId now st).2) ∧
  (∀ user id content now st,
     R st (CommentsRouter.updateComment user id content now st).2) ∧
  (∀ user id st, R st (CommentsRouter.deleteComment user id st).2).

(** A relation between the store before a request and the answer and
    store after it that every handler of the two routers satisfies. *)
Definition answeredByRoutes (R : Store → Response * Store → Prop) : Prop :=
  (∀ authorization st, R st (PostsRouter.listPosts authorization st)) ∧
  (∀ user id st, R st (PostsRouter.getPost user id st)) ∧
  (∀ user title content file newId now st,
     R st (PostsRouter.createPost user title content file newId now st)) ∧
  (∀ user id title content file now st,
     R st (PostsRouter.updatePost user id title content file now st)) ∧
  (∀ user id st, R st (PostsRouter.deletePost user id st)) ∧
  (∀ postId st, R st (CommentsRouter.listComments postId st)) ∧
  (∀ user content postId newId now st,
     R st (CommentsRouter.createComment user content postId newId now st)) ∧
  (∀ user id content now st,
     R st (CommentsRouter.updateComment user id content now st)) ∧
  (∀ user id st, R st (CommentsRouter.deleteComment user id st)).

(** * Properties *)

(** ** Strings *)

Lemma truthy_Some (s : string) : JS.truthy (Some s) = true ↔ s ≠ "".
Proof.
  unfold JS.truthy. rewrite negb_true_iff.
  destruct (String.eqb_spec s ""); split; congruence.
Qed.

Lemma truthy_false (v : option string) : JS.truthy v = false ↔ empty v.
Proof.
  unfold empty. destruct v as [s|]; simpl.
  - rewrite negb_false_iff. destruct (String.eqb_spec s "").
    + subst. split; auto.
    + split; [discriminate|]. intros [?|[=]]; congruence.
  - split; auto.
Qed.

Lemma length_append (s t : string) :
  String.length (s +:+ t) = String.length s + String.length t.
Proof. induction s as [|c s IH]; simpl; [done | by rewrite IH]. Qed.

Lemma length_prefix_le (n : nat) (s : string) :
  String.length (String.substring 0 n s) ≤ n.
Proof.
  revert s. induction n as [|n IH]; intros [|c s]; simpl; try lia.
  specialize (IH s). lia.
Qed.

Lemma prefix_short (n : nat) (s : string) :
  String.length s ≤ n → String.substring 0 n s = s.
Proof.
  revert s. induction n as [|n IH]; intros [|c s]; simpl; intros H;
    try done; try lia.
  f_equal. apply IH. lia.
Qed.

Lemma replace_Bearer (token : string) :
  JS.replace "Bearer " "" ("Bearer " +:+ token) = token.
Proof. destruct token; reflexivity. Qed.

(** ** Listing posts *)

Lemma limitedView_length (p : Post.t) :
  String.length (v_content (PostsRouter.limitedView p)) ≤ 153.
Proof.
  unfold PostsRouter.limitedView, JS.substring; simpl v_content.
  rewrite length_append.
  change (0 `min` 150) with 0. change (0 `max` 150 - 0) with 150.
  pose proof (length_prefix_le 150 (Post.content p)). simpl String.length. lia.
Qed.

Lemma limitedView_short (p : Post.t) :
  String.length (Post.content p) ≤ 150 →
  v_content (PostsRouter.limitedView p) = Post.content p +:+ "...".
Proof.
  intros H. unfold PostsRouter.limitedView, JS.substring; simpl v_content.
  change (0 `min` 150) with 0. change (0 `max` 150 - 0) with 150.
  by rewrite prefix_short.
Qed.

Lemma elem_of_findSorted (p : Post.t) (st : Store) :
  p ∈ PostsRouter.findSorted st ↔ ∃ id, posts st !! id = Some p.
Proof.
  unfold PostsRouter.findSorted. rewrite merge_sort_Permutation.
  rewrite list_elem_of_fmap. split.
  - intros [[id q] [-> Hin]]. exists id. by apply elem_of_map_to_list.
  - intros [id Hid]. exists (id, p). split; [done|].
    by apply elem_of_map_to_list.
Qed.

Lemma listing_json (l : list PostView) : listing (json (PostList l)) = l.
Proof. reflexivity. Qed.

Lemma listPosts_limited (authorization : option string) (st : Store) :
  JS.truthy (PostsRouter.bearerToken authorization) = false →
  PostsRouter.listPosts authorization st =
    (json (PostList (PostsRouter.limitedView <$> PostsRouter.findSorted st)), st).
Proof. intros H. unfold PostsRouter.listPosts. by rewrite H. Qed.

Lemma listPosts_full (authorization : option string) (st : Store) :
  JS.truthy (PostsRouter.bearerToken authorization) = true →
  PostsRouter.listPosts authorization st =
    (json (PostList (PostsRouter.fullView (users st) <$> PostsRouter.findSorted st)), st).
Proof. intros H. unfold PostsRouter.listPosts. by rewrite H. Qed.

(** With no token at all, every listed post has at most 153 characters
    of content and no [author] key. *)
Lemma listPosts_limited_bound (authorization : option string) (st : Store)
    (v : PostView) :
  JS.truthy (PostsRouter.bearerToken authorization) = false →
  v ∈ listing (PostsRouter.listPosts authorization st).1 →
  String.length (v_content v) ≤ 153 ∧ v_author v = None.
Proof.
  intros H Hv. rewrite (listPosts_limited _ _ H) in Hv. simpl in Hv.
  apply list_elem_of_fmap in Hv as [p [-> _]].
  split; [apply limitedView_length | done].
Qed.

(** A non-empty bearer string that the credential check rejects resolves
    to no user, and still selects the full view. *)
Lemma rejected_bearer_is_served_in_full (verifyToken : string → option ObjectId)
    (token : string) (st : Store) :
  token ≠ "" → verifyToken token = None →
  authenticate verifyToken (Some ("Bearer " +:+ token)) st = None ∧
  PostsRouter.listPosts (Some ("Bearer " +:+ token)) st =
    (json (PostList (PostsRouter.fullView (users st) <$> PostsRouter.findSorted st)), st).
Proof.
  intros Hne Hrej.
  assert (Ht : PostsRouter.bearerToken (Some ("Bearer " +:+ token)) = Some token).
  { change (PostsRouter.bearerToken (Some ("Bearer " +:+ token)))
      with (Some (JS.replace "Bearer " "" ("Bearer " +:+ token))).
    by rewrite replace_Bearer. }
  split.
  - unfold authenticate, JS.falsy. rewrite Ht.
    rewrite (proj2 (truthy_Some token) Hne). simpl. by rewrite Hrej.
  - apply listPosts_full. rewrite Ht. by apply truthy_Some.
Qed.

(** C1: the listing hands the full content (more than 153 characters) and
    the [author] key of a post to a caller whose bearer string is not a
    credential: [authenticate] rejects the very same header.  The handler
    tests the presence of a token where its comments speak of
    authenticated users. *)
Theorem C1_unverified_bearer_gets_full_listing :
  authenticate Sample.verifyToken (Some "Bearer garbage") Sample.store = None ∧
  posts Sample.store !! Post._id Sample.essay = Some Sample.essay ∧
  ∃ v, v ∈ listing (PostsRouter.listPosts (Some "Bearer garbage") Sample.store).1 ∧
       v_id v = Post._id Sample.essay ∧
       v_content v = Post.content Sample.essay ∧
       String.length (v_content v) = 200 ∧
       v_author v = Some (Some (mkRef (User._id Sample.alice) "alice")).
Proof.
  split; [by vm_compute|]. split; [by vm_compute|].
  exists (PostsRouter.fullView (users Sample.store) Sample.essay).
  split; [|by vm_compute].
  rewrite listPosts_full by reflexivity. simpl.
  apply list_elem_of_fmap. exists Sample.essay. split; [done|].
  apply elem_of_findSorted. exists (Post._id Sample.essay). by vm_compute.
Qed.

(** C2, as stated, fails: the post "Hi"/"World" is listed to the public
    with the content "World...", not "World". *)
Lemma C2_short_content_is_changed :
  posts Sample.small !! Post._id Sample.hello = Some Sample.hello ∧
  String.length (Post.content Sample.hello) < 150 ∧
  ∃ v, listing (PostsRouter.listPosts None Sample.small).1 = [v] ∧
       v_content v = "World..." ∧
       v_content v ≠ Post.content Sample.hello.
Proof.
  split; [by vm_compute|]. split; [vm_compute; lia|].
  eexists. split; [by vm_compute|]. split; [done|]. by vm_compute.
Qed.

(** C2, amended: when the request carries no token, every listed post is
    the limited view of a stored post and every stored post is listed;
    for a post whose content is shorter than 150 characters the listed
    content is the whole content followed by the marker "...". *)
Theorem C2_short_content_gets_marker (authorization : option string)
    (st : Store) :
  JS.truthy (PostsRouter.bearerToken authorization) = false →
  (∀ v, v ∈ listing (PostsRouter.listPosts authorization st).1 →
        ∃ id p, posts st !! id = Some p ∧ v = PostsRouter.limitedView p) ∧
  (∀ id p, posts st !! id = Some p →
           String.length (Post.content p) < 150 →
           ∃ v, v ∈ listing (PostsRouter.listPosts authorization st).1 ∧
                v_id v = Post._id p ∧
                v_content v = Post.content p +:+ "..." ∧
                v_author v = None).
Proof.
  intros H. rewrite (listPosts_limited _ _ H). simpl. split.
  - intros v Hv. apply list_elem_of_fmap in Hv as [p [-> Hp]].
    apply elem_of_findSorted in Hp as [id Hid]. eauto.
  - intros id p Hid Hlen. exists (PostsRouter.limitedView p). split.
    + apply list_elem_of_fmap. exists p. split; [done|].
      apply elem_of_findSorted. eauto.
    + split; [done|]. split; [|done]. apply limitedView_short. lia.
Qed.

Lemma C2_short_content_gets_marker_witness :
  JS.truthy (PostsRouter.bearerToken None) = false ∧
  ∃ v, v ∈ listing (PostsRouter.listPosts None Sample.small).1 ∧
       v_id v = Post._id Sample.hello ∧
       v_content v = "World..." ∧
       v_author v = None.
Proof.
  split; [reflexivity|].
  apply (proj2 (C2_short_content_gets_marker None Sample.small eq_refl)
               (Post._id Sample.hello) Sample.hello).
  - vm_compute. reflexivity.
  - vm_compute. lia.
Defined.

(** C10: what the listing returns depends on the request only through the
    truth value of the bearer token, and a request with any non-empty
    bearer string gets, for every stored post, the full content and the
    populated [author]; the credential check plays no part: a bearer
    string that it rejects, for which [authenticate] finds no user, is
    answered like any other. *)
Theorem C10_listing_keyed_on_token_presence (st : Store) :
  (∀ a1 a2,
     JS.truthy (PostsRouter.bearerToken a1) = JS.truthy (PostsRouter.bearerToken a2) →
     PostsRouter.listPosts a1 st = PostsRouter.listPosts a2 st) ∧
  (∀ (verifyToken : string → option ObjectId) token token',
     token ≠ "" → token' ≠ "" → verifyToken token = None →
     authenticate verifyToken (Some ("Bearer " +:+ token)) st = None ∧
     PostsRouter.listPosts (Some ("Bearer " +:+ token)) st
     = PostsRouter.listPosts (Some ("Bearer " +:+ token')) st) ∧
  (∀ token, token ≠ "" →
     JS.truthy (PostsRouter.bearerToken (Some ("Bearer " +:+ token))) = true ∧
     listing (PostsRouter.listPosts (Some ("Bearer " +:+ token)) st).1
       ≡ₚ PostsRouter.fullView (users st) <$> (map_to_list (posts st)).*2 ∧
     ∀ id p, posts st !! id = Some p →
       ∃ v, v ∈ listing (PostsRouter.listPosts (Some ("Bearer " +:+ token)) st).1 ∧
            v_id v = Post._id p ∧
            v_content v = Post.content p ∧
            v_author v = Some (populate (users st) (Post.author p))).
Proof.
  assert (Htruthy : ∀ token, token ≠ "" →
    JS.truthy (PostsRouter.bearerToken (Some ("Bearer " +:+ token))) = true).
  { intros token Hne.
    change (PostsRouter.bearerToken (Some ("Bearer " +:+ token)))
      with (Some (JS.replace "Bearer " "" ("Bearer " +:+ token))).
    rewrite replace_Bearer. by apply truthy_Some. }
  split; [|split].
  - intros a1 a2 H. unfold PostsRouter.listPosts. by rewrite H.
  - intros verifyToken token token' Hne Hne' Hrej. split.
    + by apply rejected_bearer_is_served_in_full.
    + by rewrite !listPosts_full by auto.
  - intros token Hne. pose proof (Htruthy token Hne) as Ht.
    split; [done|]. rewrite (listPosts_full _ _ Ht).
    change (json ?b, st).1 with (json b). rewrite listing_json. split.
    + unfold PostsRouter.findSorted. by rewrite merge_sort_Permutation.
    + intros id p Hid. exists (PostsRouter.fullView (users st) p).
      split; [|done]. apply list_elem_of_fmap. exists p. split; [done|].
      apply elem_of_findSorted. eauto.
Qed.

Lemma C10_listing_keyed_on_token_presence_witness :
  "garbage" ≠ "" ∧
  ∃ v, v ∈ listing (PostsRouter.listPosts (Some "Bearer garbage") Sample.store).1 ∧
       v_id v = Post._id Sample.essay ∧
       v_content v = Post.content Sample.essay ∧
       v_author v = Some (populate (users Sample.store) (Post.author Sample.essay)).
Proof.
  split; [discriminate|].
  refine (proj2 (proj2 (proj2 (proj2 (C10_listing_keyed_on_token_presence
                                        Sample.store))
                              "garbage" _))
                (Post._id Sample.essay) Sample.essay _).
  - discriminate.
  - vm_compute. reflexivity.
Defined.

(** ** Comments *)

Lemma eqb_false_ne (a b : string) : String.eqb a b = false ↔ a ≠ b.
Proof. apply String.eqb_neq. Qed.

(** C3: on a stored comment, an actor whose id is not the comment's
    author gets Forbidden from [updateComment], whatever the actor's role
    (admin included) and whatever the new content, and the store is left
    as it was; an edit that answers 200 was made by the author. *)
Theorem C3_only_author_edits_comment (user : User.t) (id : ObjectId)
    (comment : Comment.t) (content : option string) (now : Date) (st : Store) :
  comments st !! id = Some comment →
  (User._id user ≠ Comment.author comment →
     CommentsRouter.updateComment user id content now st =
       (fail Forbidden "You can only edit your own comments", st)) ∧
  (status (CommentsRouter.updateComment user id content now st).1 = OK →
     User._id user = Comment.author comment).
Proof.
  intros Hc. unfold CommentsRouter.updateComment. rewrite Hc.
  destruct (String.eqb_spec (Comment.author comment) (User._id user)) as [He|Hne];
    simpl.
  - split; [congruence | done].
  - split; [done | discriminate].
Qed.

Lemma C3_only_author_edits_comment_witness :
  comments Sample.store !! Comment._id Sample.remark = Some Sample.remark ∧
  User._id Sample.root ≠ Comment.author Sample.remark ∧
  User.role Sample.root = RoleAdmin ∧
  CommentsRouter.updateComment Sample.root (Comment._id Sample.remark)
      (Some "edited") 4000 Sample.store =
    (fail Forbidden "You can only edit your own comments", Sample.store).
Proof.
  assert (H : comments Sample.store !! Comment._id Sample.remark = Some Sample.remark)
    by (vm_compute; reflexivity).
  assert (Hne : User._id Sample.root ≠ Comment.author Sample.remark)
    by discriminate.
  split; [exact H|]. split; [exact Hne|]. split; [reflexivity|].
  exact (proj1 (C3_only_author_edits_comment Sample.root _ _ (Some "edited") 4000
                  Sample.store H) Hne).
Defined.

(** Entered with an ObjectId, [deleteComment] answers NotFound when no
    comment has it; on a stored comment it succeeds for the author and
    for any admin, removing that comment and no other, and answers
    Forbidden, changing nothing, for an actor who is neither. *)
Lemma deleteComment_cases (user : User.t) (id : ObjectId)
    (st : Store) :
  (comments st !! id = None →
     CommentsRouter.deleteComment user id st =
       (fail NotFound "Comment not found", st)) ∧
  (∀ comment, comments st !! id = Some comment →
     (User._id user = Comment.author comment ∨ User.role user = RoleAdmin →
        CommentsRouter.deleteComment user id st =
          (json (Message "Comment deleted successfully"),
           setComments (delete id (comments st)) st) ∧
        comments (CommentsRouter.deleteComment user id st).2 !! id = None ∧
        ∀ j, j ≠ id →
          comments (CommentsRouter.deleteComment user id st).2 !! j
          = comments st !! j) ∧
     (User._id user ≠ Comment.author comment → User.role user ≠ RoleAdmin →
        CommentsRouter.deleteComment user id st =
          (fail Forbidden "Access denied", st))).
Proof.
  unfold CommentsRouter.deleteComment. split.
  - by intros ->.
  - intros comment ->. unfold User.isAdmin. split.
    + intros Hok.
      assert (Hgo : negb (String.eqb (Comment.author comment) (User._id user))
                    && negb (bool_decide (User.role user = RoleAdmin)) = false).
      { destruct Hok as [He|Ha].
        - rewrite He, String.eqb_refl. done.
        - rewrite (bool_decide_eq_true_2 _ Ha). by rewrite andb_false_r. }
      rewrite Hgo. split; [done|]. simpl. split.
      * apply lookup_delete_eq.
      * intros j Hj. by apply lookup_delete_ne.
    + intros Hne Hna.
      rewrite (proj2 (eqb_false_ne _ _)) by congruence.
      by rewrite (bool_decide_eq_false_2 _ Hna).
Qed.

(** C4, as stated, fails: a string that is not an ObjectId matches no
    comment, and [DELETE /comments/:id] answers it with 500, not with
    NotFound: the cast of the id throws before the lookup and the
    handler has one answer for everything it catches. *)
Lemma C4_malformed_id_is_a_server_error :
  Sample.castObjectId "not-an-id" = None ∧
  comments Sample.store !! "not-an-id" = None ∧
  Http.deleteComment Sample.castObjectId Sample.bob "not-an-id" Sample.store
    = (fail PersistenceError "Error deleting comment", Sample.store) ∧
  PersistenceError ≠ NotFound.
Proof. repeat split; by vm_compute. Qed.

(** C4, amended: [DELETE /comments/:id] answers 500, deleting nothing,
    when the id is not an ObjectId.  When it is one, under any spelling,
    the route answers NotFound if no comment has that ObjectId; on the
    comment that has it, it succeeds for the author and for every admin,
    author or not, removing that comment and no other, and it answers
    Forbidden, changing nothing, for an actor who is neither. *)
Theorem C4_delete_comment_by_author_or_admin
    (castObjectId : string → option ObjectId) (user : User.t) (id : string)
    (st : Store) :
  (castObjectId id = None →
     Http.deleteComment castObjectId user id st =
       (fail PersistenceError "Error deleting comment", st)) ∧
  (∀ oid, castObjectId id = Some oid →
     (comments st !! oid = None →
        Http.deleteComment castObjectId user id st =
          (fail NotFound "Comment not found", st)) ∧
     (∀ comment, comments st !! oid = Some comment →
        (User._id user = Comment.author comment ∨ User.role user = RoleAdmin →
           Http.deleteComment castObjectId user id st =
             (json (Message "Comment deleted successfully"),
              setComments (delete oid (comments st)) st) ∧
           comments (Http.deleteComment castObjectId user id st).2 !! oid = None ∧
           ∀ j, j ≠ oid →
             comments (Http.deleteComment castObjectId user id st).2 !! j
             = comments st !! j) ∧
        (User._id user ≠ Comment.author comment → User.role user ≠ RoleAdmin →
           Http.deleteComment castObjectId user id st =
             (fail Forbidden "Access denied", st)))).
Proof.
  unfold Http.deleteComment. split.
  - by intros ->.
  - intros oid ->. apply deleteComment_cases.
Qed.

Lemma C4_delete_comment_by_author_or_admin_witness :
  (* a well-formed id that no comment has *)
  Http.deleteComment Sample.castObjectId Sample.bob "64b0f1a2c3d4e5f6010203cf"
      Sample.store
    = (fail NotFound "Comment not found", Sample.store) ∧
  (* root is an admin and not the author; the id is spelled in upper case *)
  (Sample.castObjectId "64B0F1A2C3D4E5F6010203C1" = Some (Comment._id Sample.remark) ∧
   User._id Sample.root ≠ Comment.author Sample.remark ∧
   status (Http.deleteComment Sample.castObjectId Sample.root
             "64B0F1A2C3D4E5F6010203C1" Sample.store).1 = OK ∧
   comments (Http.deleteComment Sample.castObjectId Sample.root
               "64B0F1A2C3D4E5F6010203C1" Sample.store).2
     !! Comment._id Sample.remark = None) ∧
  (* bob is the author *)
  status (Http.deleteComment Sample.castObjectId Sample.bob
            (Comment._id Sample.remark) Sample.store).1 = OK ∧
  (* alice is neither *)
  Http.deleteComment Sample.castObjectId Sample.alice (Comment._id Sample.remark)
      Sample.store
    = (fail Forbidden "Access denied", Sample.store) ∧
  (* not an ObjectId *)
  Http.deleteComment Sample.castObjectId Sample.bob "not-an-id" Sample.store
    = (fail PersistenceError "Error deleting comment", Sample.store).
Proof.
  assert (H : comments Sample.store !! Comment._id Sample.remark = Some Sample.remark)
    by (vm_compute; reflexivity).
  assert (Hup : Sample.castObjectId "64B0F1A2C3D4E5F6010203C1"
                = Some (Comment._id Sample.remark)) by (vm_compute; reflexivity).
  assert (Hlow : Sample.castObjectId (Comment._id Sample.remark)
                 = Some (Comment._id Sample.remark)) by (vm_compute; reflexivity).
  split.
  { apply (proj1 (proj2 (C4_delete_comment_by_author_or_admin Sample.castObjectId
                           Sample.bob "64b0f1a2c3d4e5f6010203cf" Sample.store)
                    "64b0f1a2c3d4e5f6010203cf" ltac:(vm_compute; reflexivity))).
    vm_compute. reflexivity. }
  split.
  { split; [exact Hup|]. split; [discriminate|].
    destruct (proj1 (proj2 (proj2 (C4_delete_comment_by_author_or_admin
                Sample.castObjectId Sample.root "64B0F1A2C3D4E5F6010203C1"
                Sample.store) _ Hup) _ H) (or_intror eq_refl))
      as (Heq & Hgone & _).
    split; [by rewrite Heq | exact Hgone]. }
  split.
  { destruct (proj1 (proj2 (proj2 (C4_delete_comment_by_author_or_admin
                Sample.castObjectId Sample.bob (Comment._id Sample.remark)
                Sample.store) _ Hlow) _ H) (or_introl eq_refl))
      as (Heq & _). by rewrite Heq. }
  split.
  { apply (proj2 (proj2 (proj2 (C4_delete_comment_by_author_or_admin
             Sample.castObjectId Sample.alice (Comment._id Sample.remark)
             Sample.store) _ Hlow) _ H)); discriminate. }
  apply (proj1 (C4_delete_comment_by_author_or_admin Sample.castObjectId
                  Sample.bob "not-an-id" Sample.store)).
  vm_compute. reflexivity.
Defined.

(** C5, as stated, fails: a postId that matches no post is answered
    with ValidationError (400) when the content is empty, because the
    test of the two fields comes first in the handler, and with 500 when
    it is not an ObjectId, because the cast throws before the lookup;
    neither answer is NotFound. *)
Lemma C5_validation_precedes_existence_check :
  Sample.castObjectId "64b0f1a2c3d4e5f6010203af" = Some "64b0f1a2c3d4e5f6010203af" ∧
  posts Sample.store !! "64b0f1a2c3d4e5f6010203af" = None ∧
  Http.createComment Sample.castObjectId Sample.bob (Some "")
      (Some "64b0f1a2c3d4e5f6010203af") "64b0f1a2c3d4e5f6010203c2" 4000
      Sample.store
    = (fail ValidationError "Content and post ID are required", Sample.store) ∧
  Sample.castObjectId "not-an-id" = None ∧
  posts Sample.store !! "not-an-id" = None ∧
  Http.createComment Sample.castObjectId Sample.bob (Some "Nice")
      (Some "not-an-id") "64b0f1a2c3d4e5f6010203c2" 4000 Sample.store
    = (fail PersistenceError "Error creating comment", Sample.store) ∧
  ValidationError ≠ NotFound ∧ PersistenceError ≠ NotFound.
Proof. repeat split; by vm_compute. Qed.

(** C5, amended: when the postId names no stored post, [POST /comments]
    leaves the store as it was, whatever the other inputs; with a
    content and a postId that are both non-empty, it answers NotFound
    when the postId is an ObjectId and 500 when it is not.  With an
    empty content or postId it answers ValidationError before it looks
    at the post. *)
Theorem C5_missing_post_creates_no_comment
    (castObjectId : string → option ObjectId) (user : User.t)
    (content postId : option string) (newId : ObjectId) (now : Date)
    (st : Store) :
  (∀ pid, castObjectId (JS.str postId) = Some pid → posts st !! pid = None) →
  (Http.createComment castObjectId user content postId newId now st).2 = st ∧
  (empty content ∨ empty postId →
     Http.createComment castObjectId user content postId newId now st =
       (fail ValidationError "Content and post ID are required", st)) ∧
  (JS.truthy content = true → JS.truthy postId = true →
     (is_Some (castObjectId (JS.str postId)) →
        Http.createComment castObjectId user content postId newId now st =
          (fail NotFound "Post not found", st)) ∧
     (castObjectId (JS.str postId) = None →
        Http.createComment castObjectId user content postId newId now st =
          (fail PersistenceError "Error creating comment", st))).
Proof.
  intros Hp. unfold Http.createComment, JS.falsy. split_and!.
  - destruct (JS.truthy content), (JS.truthy postId); simpl; try done.
    destruct (castObjectId (JS.str postId)) as [pid|] eqn:Hcast; [|done].
    by rewrite (Hp pid).
  - intros [H|H]; apply truthy_false in H; rewrite H; simpl; [done|].
    by rewrite orb_true_r.
  - intros -> ->. simpl. split.
    + intros [pid Hcast]. rewrite Hcast. by rewrite (Hp pid).
    + by intros ->.
Qed.

Lemma C5_missing_post_creates_no_comment_witness :
  (∀ pid, Sample.castObjectId (JS.str (Some "64b0f1a2c3d4e5f6010203af")) = Some pid →
          posts Sample.store !! pid = None) ∧
  Http.createComment Sample.castObjectId Sample.bob (Some "Nice")
      (Some "64b0f1a2c3d4e5f6010203af") "64b0f1a2c3d4e5f6010203c2" 4000
      Sample.store
    = (fail NotFound "Post not found", Sample.store).
Proof.
  assert (H : ∀ pid,
    Sample.castObjectId (JS.str (Some "64b0f1a2c3d4e5f6010203af")) = Some pid →
    posts Sample.store !! pid = None).
  { intros pid Hpid. vm_compute in Hpid. injection Hpid as <-.
    vm_compute. reflexivity. }
  split; [exact H|].
  apply (proj1 (proj2 (proj2 (C5_missing_post_creates_no_comment
           Sample.castObjectId Sample.bob (Some "Nice")
           (Some "64b0f1a2c3d4e5f6010203af") "64b0f1a2c3d4e5f6010203c2" 4000
           Sample.store H)) eq_refl eq_refl)).
  vm_compute. eauto.
Defined.

(** ** Posts *)

(** C6: [createPost] with a missing or empty title, or a missing or empty
    content, answers ValidationError and the store is left as it was. *)
Theorem C6_create_post_requires_title_and_content (user : User.t)
    (title content file : option string) (newId : ObjectId) (now : Date)
    (st : Store) :
  empty title ∨ empty content →
  PostsRouter.createPost user title content file newId now st =
    (fail ValidationError "Title and content are required", st).
Proof.
  intros H. unfold PostsRouter.createPost, JS.falsy.
  destruct H as [H|H]; apply truthy_false in H; rewrite H; simpl; [done|].
  by rewrite orb_true_r.
Qed.

Lemma C6_create_post_requires_title_and_content_witness :
  empty (Some "") ∧
  PostsRouter.createPost Sample.alice (Some "") (Some "World") None
      "64b0f1a2c3d4e5f6010203a3" 4000 Sample.store =
    (fail ValidationError "Title and content are required", Sample.store) ∧
  PostsRouter.createPost Sample.alice (Some "Hi") (Some "") (Some "image-1.png")
      "64b0f1a2c3d4e5f6010203a3" 4000 Sample.store =
    (fail ValidationError "Title and content are required", Sample.store).
Proof.
  split; [right; reflexivity|]. split.
  - apply C6_create_post_requires_title_and_content. left. right. reflexivity.
  - apply C6_create_post_requires_title_and_content. right. right. reflexivity.
Defined.

(** What the three conditional assignments leave in each field. *)
Lemma assignFields_fields (title content file : option string) (post : Post.t) :
  let edited := PostsRouter.assignFields title content file post in
  Post.title edited = (if JS.truthy title then JS.str title else Post.title post) ∧
  Post.content edited
    = (if JS.truthy content then JS.str content else Post.content post) ∧
  Post.image edited = from_option PostsRouter.uploadPath (Post.image post) file ∧
  Post._id edited = Post._id post ∧
  Post.author edited = Post.author post ∧
  Post.authorName edited = Post.authorName post ∧
  Post.createdAt edited = Post.createdAt post.
Proof.
  unfold PostsRouter.assignFields.
  destruct (JS.truthy title), (JS.truthy content), file; simpl; done.
Qed.

Lemma authorized_guard (user : User.t) (owner : ObjectId) :
  User._id user = owner ∨ User.role user = RoleAdmin →
  negb (String.eqb owner (User._id user)) && negb (User.isAdmin user) = false.
Proof.
  unfold User.isAdmin. intros [<-|Ha].
  - by rewrite String.eqb_refl.
  - rewrite (bool_decide_eq_true_2 _ Ha). by rewrite andb_false_r.
Qed.

(** A post is edited by its owner or by an admin only. *)
Lemma updatePost_forbidden (user : User.t) (id : ObjectId)
    (title content file : option string) (now : Date) (st : Store)
    (post : Post.t) :
  posts st !! id = Some post →
  User._id user ≠ Post.author post → User.role user ≠ RoleAdmin →
  PostsRouter.updatePost user id title content file now st =
    (fail Forbidden "You can only edit your own posts", st).
Proof.
  intros Hp Hne Hna. unfold PostsRouter.updatePost, User.isAdmin. rewrite Hp.
  rewrite (proj2 (String.eqb_neq _ _)) by congruence.
  by rewrite (bool_decide_eq_false_2 _ Hna).
Qed.

(** C7: an authorized [updatePost] on a stored post answers 200 with the
    saved document, which is the one stored under the id afterwards.  In
    it, [title] and [content] hold the supplied string when one was
    supplied and is not empty, and their previous value when the field
    was omitted or supplied empty; [image] holds the path of the uploaded
    file when there is one and its previous value otherwise; [_id],
    [author], [authorName] and [createdAt] are as before and [updatedAt]
    is as before or the time of the request; every other post, the users
    and the comments are untouched. *)
Theorem C7_update_post_is_partial (user : User.t) (id : ObjectId)
    (title content file : option string) (now : Date) (st : Store)
    (post : Post.t) :
  posts st !! id = Some post →
  User._id user = Post.author post ∨ User.role user = RoleAdmin →
  ∃ saved st',
    PostsRouter.updatePost user id title content file now st
      = (json (PostDoc saved), st') ∧
    posts st' !! id = Some saved ∧
    (∀ s, title = Some s → s ≠ "" → Post.title saved = s) ∧
    (empty title → Post.title saved = Post.title post) ∧
    (∀ s, content = Some s → s ≠ "" → Post.content saved = s) ∧
    (empty content → Post.content saved = Post.content post) ∧
    (∀ filename, file = Some filename →
       Post.image saved = "/uploads/" +:+ filename) ∧
    (file = None → Post.image saved = Post.image post) ∧
    Post._id saved = Post._id post ∧
    Post.author saved = Post.author post ∧
    Post.authorName saved = Post.authorName post ∧
    Post.createdAt saved = Post.createdAt post ∧
    (Post.updatedAt saved = Post.updatedAt post ∨ Post.updatedAt saved = now) ∧
    (∀ j, j ≠ id → posts st' !! j = posts st !! j) ∧
    users st' = users st ∧ comments st' = comments st.
Proof.
  intros Hp Hauth. unfold PostsRouter.updatePost. rewrite Hp.
  rewrite (authorized_guard _ _ Hauth).
  pose proof (assignFields_fields title content file post) as Hf.
  cbv zeta in Hf. destruct Hf as (Ht & Hc & Hi & Hid & Ha & Han & Hca).
  set (edited := PostsRouter.assignFields title content file post) in *.
  assert (Hfields : ∀ saved,
    Post.title saved = Post.title edited →
    Post.content saved = Post.content edited →
    Post.image saved = Post.image edited →
    (∀ s, title = Some s → s ≠ "" → Post.title saved = s) ∧
    (empty title → Post.title saved = Post.title post) ∧
    (∀ s, content = Some s → s ≠ "" → Post.content saved = s) ∧
    (empty content → Post.content saved = Post.content post) ∧
    (∀ filename, file = Some filename →
       Post.image saved = "/uploads/" +:+ filename) ∧
    (file = None → Post.image saved = Post.image post)).
  { intros saved -> -> ->. rewrite Ht, Hc, Hi. repeat split.
    - intros s -> Hs. by rewrite (proj2 (truthy_Some s) Hs).
    - intros He. by rewrite (proj2 (truthy_false title) He).
    - intros s -> Hs. by rewrite (proj2 (truthy_Some s) Hs).
    - intros He. by rewrite (proj2 (truthy_false content) He).
    - by intros filename ->.
    - by intros ->. }
  unfold PostsRouter.savePost. case_bool_decide as Heq.
  - exists post, st. split; [done|]. split; [done|].
    destruct (Hfields post) as (?&?&?&?&?&?); [by rewrite Heq..|].
    repeat split; try done. by left.
  - exists (PostsRouter.touch now edited), (setPosts (<[id := PostsRouter.touch now edited]> (posts st)) st).
    split; [done|]. split; [apply lookup_insert_eq|].
    destruct (Hfields (PostsRouter.touch now edited)) as (?&?&?&?&?&?); [done..|].
    repeat split; try done.
    + by right.
    + intros j Hj. simpl. by rewrite lookup_insert_ne.
Qed.

Lemma C7_update_post_is_partial_witness :
  posts Sample.store !! Post._id Sample.hello = Some Sample.hello ∧
  (User._id Sample.alice = Post.author Sample.hello ∨
   User.role Sample.alice = RoleAdmin) ∧
  ∃ saved st',
    PostsRouter.updatePost Sample.alice (Post._id Sample.hello)
        (Some "") (Some "Everyone") None 5000 Sample.store
      = (json (PostDoc saved), st') ∧
    posts st' !! Post._id Sample.hello = Some saved ∧
    Post.title saved = "Hi" ∧
    Post.content saved = "Everyone" ∧
    Post.image saved = "" ∧
    Post.author saved = User._id Sample.alice.
Proof.
  assert (H : posts Sample.store !! Post._id Sample.hello = Some Sample.hello)
    by (vm_compute; reflexivity).
  assert (Ha : User._id Sample.alice = Post.author Sample.hello ∨
               User.role Sample.alice = RoleAdmin) by (left; reflexivity).
  split; [exact H|]. split; [exact Ha|].
  destruct (C7_update_post_is_partial Sample.alice (Post._id Sample.hello)
              (Some "") (Some "Everyone") None 5000 Sample.store Sample.hello
              H Ha)
    as (saved & st' & Hr & Hs & _ & Ht & Hc & _ & _ & Hi & _ & Hau & _).
  exists saved, st'. split; [exact Hr|]. split; [exact Hs|].
  split; [apply Ht; right; reflexivity|].
  split; [apply (Hc "Everyone"); [reflexivity | discriminate]|].
  split; [apply Hi; reflexivity | exact Hau].
Defined.

(** ** The author of a post *)

Lemma authorStable_same (st st' : Store) :
  posts st' = posts st → authorStable st st'.
Proof. intros H id p p' Hp Hp'. rewrite H in Hp'. congruence. Qed.

#[local] Hint Resolve authorStable_same : core.

Lemma createPost_authorStable user title content file newId now st :
  authorStable st (PostsRouter.createPost user title content file newId now st).2.
Proof.
  unfold PostsRouter.createPost.
  destruct (JS.falsy title || JS.falsy content); [by auto|].
  case_bool_decide as Hfresh; [|by auto].
  intros id p p' Hp Hp'. simpl in Hp'.
  rewrite lookup_insert_ne in Hp' by congruence. congruence.
Qed.

Lemma updatePost_authorStable user id title content file now st :
  authorStable st (PostsRouter.updatePost user id title content file now st).2.
Proof.
  unfold PostsRouter.updatePost.
  destruct (posts st !! id) as [post|] eqn:Hpost; [|by auto].
  destruct (_ && _); [by auto|].
  unfold PostsRouter.savePost. case_bool_decide; [by auto|].
  intros j p p' Hp Hp'. simpl in Hp'.
  destruct (decide (id = j)) as [->|Hne].
  - rewrite lookup_insert_eq in Hp'. injection Hp' as <-.
    rewrite Hpost in Hp. injection Hp as <-.
    apply (assignFields_fields title content file post).
  - rewrite lookup_insert_ne in Hp' by done. congruence.
Qed.

Lemma deletePost_authorStable user id st :
  authorStable st (PostsRouter.deletePost user id st).2.
Proof.
  unfold PostsRouter.deletePost.
  destruct (posts st !! id) as [post|] eqn:Hpost; [|by auto].
  destruct (_ && _); [by auto|].
  intros j p p' Hp Hp'. simpl in Hp'.
  destruct (decide (id = j)) as [->|Hne].
  - by rewrite lookup_delete_eq in Hp'.
  - rewrite lookup_delete_ne in Hp' by done. congruence.
Qed.

Lemma createComment_posts user content postId newId now st :
  posts (CommentsRouter.createComment user content postId newId now st).2 = posts st.
Proof.
  unfold CommentsRouter.createComment.
  destruct (_ || _); [done|]. destruct (posts st !! _); [|done].
  by destruct (_ && _).
Qed.

Lemma updateComment_posts user id content now st :
  posts (CommentsRouter.updateComment user id content now st).2 = posts st.
Proof.
  unfold CommentsRouter.updateComment, CommentsRouter.saveContent.
  destruct (comments st !! id); [|done]. destruct (negb _); [done|].
  destruct content; [|done]. destruct (Comment.validate _); [|done].
  by case_bool_decide.
Qed.

Lemma deleteComment_posts user id st :
  posts (CommentsRouter.deleteComment user id st).2 = posts st.
Proof.
  unfold CommentsRouter.deleteComment.
  destruct (comments st !! id); [|done]. by destruct (_ && _).
Qed.

Lemma createAdmin_posts hashPassword argv newId st :
  posts (createAdmin hashPassword argv newId st).2 = posts st ∧
  comments (createAdmin hashPassword argv newId st).2 = comments st.
Proof.
  unfold createAdmin. destruct (_ || _); [done|].
  destruct (findOne _ _ _).
  - by destruct (User.isAdmin _).
  - by destruct (insertUser _ _).
Qed.

Lemma guarded_authorStable verifyToken deniedMessage authorization st next :
  (∀ user, authorStable st (next user).2) →
  authorStable st (guarded verifyToken deniedMessage authorization st next).2.
Proof. intros H. unfold guarded. destruct (authenticate _ _ _); auto. Qed.

Lemma step_authorStable verifyToken deniedMessage hashPassword op st :
  authorStable st (step verifyToken deniedMessage hashPassword op st).
Proof.
  destruct op as [r|argv newId]; simpl.
  - destruct r; simpl; try (apply guarded_authorStable; intros user);
      auto using createPost_authorStable, updatePost_authorStable,
        deletePost_authorStable, createComment_posts, updateComment_posts,
        deleteComment_posts.
    + unfold PostsRouter.getPost. destruct (posts st !! id); auto.
  - apply authorStable_same, createAdmin_posts.
Qed.

Lemma run_cons verifyToken deniedMessage hashPassword op ops st :
  run verifyToken deniedMessage hashPassword (op :: ops) st
  = run verifyToken deniedMessage hashPassword ops
        (step verifyToken deniedMessage hashPassword op st).
Proof. reflexivity. Qed.

(** C9: along any sequence of operations of the service (the nine
    routes, with any credentials and inputs, and the bootstrap script), a
    post that is in the store at every point of the sequence has at the
    end the [author] it had at the start. *)
Theorem C9_post_author_is_immutable (verifyToken : string → option ObjectId)
    (deniedMessage : string) (hashPassword : string → string)
    (ops : list Operation) (st : Store) (id : ObjectId) (p p' : Post.t) :
  posts st !! id = Some p →
  posts (run verifyToken deniedMessage hashPassword ops st) !! id = Some p' →
  (∀ k, is_Some (posts (run verifyToken deniedMessage hashPassword
                            (take k ops) st) !! id)) →
  Post.author p' = Post.author p.
Proof.
  revert st p. induction ops as [|op ops IH]; intros st p Hp Hp' Halive.
  - simpl in Hp'. congruence.
  - rewrite run_cons in Hp'.
    destruct (Halive 1) as [q Hq]. simpl in Hq.
    rewrite <- (step_authorStable verifyToken deniedMessage hashPassword op st
                  id p q Hp Hq).
    apply (IH _ q Hq Hp'). intros k. apply (Halive (S k)).
Qed.

Lemma C9_post_author_is_immutable_witness :
  let ops :=
    [ Http (PUT_post (Some "Bearer alice-session") (Post._id Sample.hello)
                     (Some "Hello") None (Some "image-7.png") 5000);
      Http (DELETE_post (Some "Bearer alice-session") (Post._id Sample.essay));
      AdminBootstrap ["node"; "createAdmin.js"; "bob@example.org"; "bob"; "secret"]
                     "64b0f1a2c3d4e5f601020304" ] in
  posts Sample.store !! Post._id Sample.hello = Some Sample.hello ∧
  ∃ p', posts (run Sample.verifyToken "Access denied" Sample.hashPassword ops
                   Sample.store)
          !! Post._id Sample.hello = Some p' ∧
        Post.title p' = "Hello" ∧
        Post.author p' = Post.author Sample.hello.
Proof.
  intros ops.
  assert (H : posts Sample.store !! Post._id Sample.hello = Some Sample.hello)
    by (vm_compute; reflexivity).
  split; [exact H|].
  eexists. split; [vm_compute; reflexivity|]. split; [reflexivity|].
  eapply (C9_post_author_is_immutable Sample.verifyToken "Access denied"
            Sample.hashPassword ops Sample.store (Post._id Sample.hello)).
  - exact H.
  - vm_compute. reflexivity.
  - intros k. destruct k as [|[|[|[|k]]]]; vm_compute; eauto.
Defined.

(** ** The admin bootstrap script *)

Lemma findOne_Some (email username : string) (u : User.t) (us : list User.t) :
  findOne email username us = Some u →
  u ∈ us ∧ matchesIdentity email username u = true.
Proof.
  unfold findOne. intros H. apply List.find_some in H as [Hin Hm].
  split; [by apply list_elem_of_In | done].
Qed.

Lemma findOne_None (email username : string) (us : list User.t) :
  findOne email username us = None →
  ∀ v, v ∈ us → matchesIdentity email username v = false.
Proof.
  unfold findOne. intros H v Hv.
  apply (List.find_none _ _ H). by apply list_elem_of_In.
Qed.

(** After the promotion is saved, the same query finds the promoted user. *)
Lemma findOne_replaceUser (email username : string) (u : User.t)
    (us : list User.t) :
  findOne email username us = Some u →
  findOne email username (replaceUser (promote u) us) = Some (promote u).
Proof.
  intros H. pose proof (findOne_Some _ _ _ _ H) as [_ Hm]. revert H.
  unfold findOne. induction us as [|v us IH]; simpl; [done|].
  destruct (matchesIdentity email username v) eqn:Hv.
  - intros [= ->]. rewrite String.eqb_refl. simpl.
    change (matchesIdentity email username (promote u))
      with (matchesIdentity email username u). by rewrite Hm.
  - intros H. destruct (String.eqb (User._id v) (User._id u)); simpl.
    + change (matchesIdentity email username (promote u))
        with (matchesIdentity email username u). by rewrite Hm.
    + rewrite Hv. by apply IH.
Qed.

Lemma insertUser_fresh (email username : string) (u : User.t)
    (us : list User.t) :
  User.email u = email →
  findOne email username us = None →
  (∀ v, v ∈ us → User._id v ≠ User._id u) →
  insertUser u us = Some (us ++ [u]).
Proof.
  intros He Hnone Hfresh. unfold insertUser.
  replace (List.existsb _ us) with false; [done|].
  symmetry. apply not_true_is_false. intros Hex.
  apply List.existsb_exists in Hex as [v [Hin Hv]].
  apply list_elem_of_In in Hin.
  apply orb_true_iff in Hv as [Hv|Hv]; apply String.eqb_eq in Hv.
  - by apply (Hfresh v Hin).
  - pose proof (findOne_None _ _ _ Hnone v Hin) as Hm.
    unfold matchesIdentity in Hm. apply orb_false_iff in Hm as [Hm _].
    apply String.eqb_neq in Hm. congruence.
Qed.

(** A user appended to a collection without a match is the only match. *)
Lemma findOne_appended (email username : string) (u : User.t)
    (us : list User.t) :
  findOne email username us = None →
  matchesIdentity email username u = true →
  findOne email username (us ++ [u]) = Some u ∧
  List.filter (matchesIdentity email username) (us ++ [u]) = [u].
Proof.
  unfold findOne. intros Hnone Hm.
  induction us as [|v us IH]; simpl in *.
  - by rewrite Hm.
  - destruct (matchesIdentity email username v); [done|]. by apply IH.
Qed.

(** [findOne] returns the first of the matching users. *)
Lemma findOne_head (email username : string) (us : list User.t) :
  findOne email username us
  = head (List.filter (matchesIdentity email username) us).
Proof.
  unfold findOne. induction us as [|v us IH]; simpl; [done|].
  by destruct (matchesIdentity email username v).
Qed.

Lemma unique_id (us : list User.t) (u v : User.t) :
  NoDup (User._id <$> us) → u ∈ us → v ∈ us → User._id v = User._id u → v = u.
Proof.
  induction us as [|w us IH]; intros Hnd Hu Hv Hid; [by inversion Hu|].
  rewrite fmap_cons in Hnd. apply NoDup_cons in Hnd as [Hw Hnd].
  apply elem_of_cons in Hu as [->|Hu]; apply elem_of_cons in Hv as [->|Hv];
    try done.
  - exfalso. apply Hw. rewrite <- Hid. apply list_elem_of_fmap. eauto.
  - exfalso. apply Hw. rewrite Hid. apply list_elem_of_fmap. eauto.
  - by apply IH.
Qed.

Lemma filter_map_stable {A} (f : A → bool) (g : A → A) (l : list A) :
  (∀ v, v ∈ l → f (g v) = f v) →
  List.filter f (List.map g l) = List.map g (List.filter f l).
Proof.
  induction l as [|v l IH]; intros H; simpl; [done|].
  rewrite (H v) by apply list_elem_of_here.
  rewrite IH by (intros w Hw; apply H; by apply list_elem_of_further).
  by destruct (f v).
Qed.

(** With unique identifiers, saving the promotion changes one document,
    and the users matching the identity are the same as before. *)
Lemma filter_replaceUser (email username : string) (u : User.t)
    (us : list User.t) :
  NoDup (User._id <$> us) → u ∈ us →
  List.filter (matchesIdentity email username) (replaceUser (promote u) us)
  = replaceUser (promote u) (List.filter (matchesIdentity email username) us).
Proof.
  intros Hnd Hu. unfold replaceUser. apply filter_map_stable.
  intros v Hv. simpl.
  destruct (String.eqb_spec (User._id v) (User._id u)) as [Hid|]; [|done].
  by rewrite (unique_id us u v Hnd Hu Hv Hid).
Qed.

Lemma createAdmin_with_arguments (hashPassword : string → string)
    (argv : list string) (email username password : string)
    (newId : ObjectId) (st : Store) :
  argv !! 2 = Some email → argv !! 3 = Some username →
  argv !! 4 = Some password →
  email ≠ "" → username ≠ "" → password ≠ "" →
  createAdmin hashPassword argv newId st =
    match findOne email username (users st) with
    | Some existingUser =>
        if User.isAdmin existingUser then
          (mkExit 0 "User already exists and is already an admin", st)
        else
          (mkExit 0 ("User updated to admin: " +:+ username),
           setUsers (replaceUser (promote existingUser) (users st)) st)
    | None =>
        match insertUser (User.mk newId username email (hashPassword password)
                                  RoleAdmin) (users st) with
        | Some us =>
            (mkExit 0 ("Admin user created successfully: " +:+ username),
             setUsers us st)
        | None => (mkExit 1 "Error creating admin:", st)
        end
    end.
Proof.
  intros H2 H3 H4 He Hn Hp. unfold createAdmin, JS.falsy.
  rewrite H2, H3, H4.
  rewrite (proj2 (truthy_Some email) He), (proj2 (truthy_Some username) Hn),
    (proj2 (truthy_Some password) Hp).
  reflexivity.
Qed.

(** C8: run with the three arguments given, on a store where the
    identifier drawn for a new document is not in use, the script exits
    with code 0; run again with the same arguments it exits with code 0
    again, reports that the user already is an admin, and leaves the
    store exactly as the first run left it.  In that store the user found
    for the identity is an admin; no user was added when one matched
    before, and when none matched the one created is the only user with
    that email or username.  When the identifiers in the collection are
    unique and at most one user matched the identity before, exactly one
    user matches it afterwards, and that user is an admin. *)
Theorem C8_admin_bootstrap_is_idempotent (hashPassword : string → string)
    (argv : list string) (email username password : string)
    (newId newId' : ObjectId) (st : Store) :
  argv !! 2 = Some email → argv !! 3 = Some username →
  argv !! 4 = Some password →
  email ≠ "" → username ≠ "" → password ≠ "" →
  (∀ v, v ∈ users st → User._id v ≠ newId) →
  ∃ first second st1,
    createAdmin hashPassword argv newId st = (first, st1) ∧
    createAdmin hashPassword argv newId' st1 = (second, st1) ∧
    exitCode first = 0 ∧
    exitCode second = 0 ∧
    console second = "User already exists and is already an admin" ∧
    (∃ u, findOne email username (users st1) = Some u ∧
          User.role u = RoleAdmin) ∧
    (is_Some (findOne email username (users st)) →
       length (users st1) = length (users st)) ∧
    (findOne email username (users st) = None →
       users st1 = users st ++ [User.mk newId username email
                                        (hashPassword password) RoleAdmin] ∧
       List.filter (matchesIdentity email username) (users st1)
         = [User.mk newId username email (hashPassword password) RoleAdmin]) ∧
    (NoDup (User._id <$> users st) →
     length (List.filter (matchesIdentity email username) (users st)) ≤ 1 →
       ∃ u, List.filter (matchesIdentity email username) (users st1) = [u] ∧
            User.role u = RoleAdmin) ∧
    posts st1 = posts st ∧ comments st1 = comments st.
Proof.
  intros H2 H3 H4 He Hn Hp Hfresh.
  rewrite (createAdmin_with_arguments hashPassword argv email username password
             newId st) by done.
  destruct (findOne email username (users st)) as [u|] eqn:Hfind.
  - destruct (User.isAdmin u) eqn:Hadmin.
    + eexists _, _, st. split; [done|].
      rewrite (createAdmin_with_arguments hashPassword argv email username
                 password newId' st) by done.
      rewrite Hfind, Hadmin.
      assert (Hrole : User.role u = RoleAdmin)
        by (by apply bool_decide_eq_true in Hadmin).
      repeat split; try done.
      * by exists u.
      * intros _ Hone. exists u. split; [|done].
        rewrite findOne_head in Hfind.
        destruct (List.filter _ (users st)) as [|w [|? ?]]; simpl in *;
          [done | congruence | lia].
    + eexists _, _, (setUsers (replaceUser (promote u) (users st)) st).
      split; [done|].
      rewrite (createAdmin_with_arguments hashPassword argv email username
                 password newId' _) by done.
      simpl users. rewrite (findOne_replaceUser _ _ _ _ Hfind).
      change (User.isAdmin (promote u)) with true. cbv iota.
      repeat split; try done.
      * by exists (promote u).
      * intros _. unfold replaceUser. apply List.length_map.
      * intros Hnd Hone. exists (promote u). split; [|done].
        rewrite filter_replaceUser
          by (done || by apply (findOne_Some _ _ _ _ Hfind)).
        rewrite findOne_head in Hfind.
        destruct (List.filter _ (users st)) as [|w [|? ?]]; simpl in *;
          [done | | lia].
        injection Hfind as ->. by rewrite String.eqb_refl.
  - set (admin := User.mk newId username email (hashPassword password) RoleAdmin).
    assert (Hm : matchesIdentity email username admin = true).
    { unfold matchesIdentity. simpl. by rewrite String.eqb_refl. }
    rewrite (insertUser_fresh email username admin (users st)) by done.
    destruct (findOne_appended email username admin (users st) Hfind Hm)
      as [Hfound Honly].
    eexists _, _, (setUsers (users st ++ [admin]) st). split; [done|].
    rewrite (createAdmin_with_arguments hashPassword argv email username
               password newId' _) by done.
    simpl users. rewrite Hfound.
    change (User.isAdmin admin) with true. cbv iota.
    repeat split; try done.
    + by exists admin.
    + intros _ _. by exists admin.
Qed.

Lemma C8_admin_bootstrap_is_idempotent_witness :
  let argv := ["node"; "createAdmin.js"; "bob@example.org"; "bob"; "secret"] in
  (∀ v, v ∈ users Sample.store → User._id v ≠ "64b0f1a2c3d4e5f601020304") ∧
  ∃ first second st1,
    createAdmin Sample.hashPassword argv "64b0f1a2c3d4e5f601020304" Sample.store
      = (first, st1) ∧
    createAdmin Sample.hashPassword argv "64b0f1a2c3d4e5f601020305" st1
      = (second, st1) ∧
    exitCode first = 0 ∧ exitCode second = 0 ∧
    ∃ u, findOne "bob@example.org" "bob" (users st1) = Some u ∧
         User.role u = RoleAdmin.
Proof.
  intros argv.
  assert (Hfresh : ∀ v, v ∈ users Sample.store →
                        User._id v ≠ "64b0f1a2c3d4e5f601020304").
  { intros v Hv. simpl in Hv. set_unfold in Hv.
    destruct Hv as [->|[->|[->|[]]]]; discriminate. }
  split; [exact Hfresh|].
  destruct (C8_admin_bootstrap_is_idempotent Sample.hashPassword argv
              "bob@example.org" "bob" "secret" "64b0f1a2c3d4e5f601020304"
              "64b0f1a2c3d4e5f601020305" Sample.store
              eq_refl eq_refl eq_refl ltac:(discriminate) ltac:(discriminate)
              ltac:(discriminate) Hfresh)
    as (first & second & st1 & H1 & H2 & E1 & E2 & _ & Hadmin & _).
  exists first, second, st1. repeat split; assumption.
Defined.

(** C8, as stated, fails: when the e-mail and the username given to the
    script belong to two different users, the run leaves two users with
    role admin for that identity, not a single one. *)
Lemma C8_two_admins_for_one_identity :
  let argv := ["node"; "createAdmin.js"; "alice@example.org"; "root"; "secret"] in
  let first := createAdmin Sample.hashPassword argv "64b0f1a2c3d4e5f601020304"
                 Sample.store in
  exitCode first.1 = 0 ∧
  users Sample.store = [Sample.alice; Sample.bob; Sample.root] ∧
  users first.2 = [promote Sample.alice; Sample.bob; Sample.root] ∧
  List.filter (matchesIdentity "alice@example.org" "root") (users first.2)
    = [promote Sample.alice; Sample.root] ∧
  User.role (promote Sample.alice) = RoleAdmin ∧
  User.role Sample.root = RoleAdmin ∧
  promote Sample.alice ≠ Sample.root.
Proof. repeat split; by vm_compute. Qed.

(** * Further properties of the routers and of the script *)

(** ** The Authorization header *)

Lemma append_cons (c : Ascii.ascii) (s t : string) :
  String c s +:+ t = String c (s +:+ t).
Proof. reflexivity. Qed.

Lemma prefix_app (w s : string) :
  String.prefix w s = true ↔ ∃ rest, s = w +:+ rest.
Proof.
  revert s. induction w as [|a w IH]; intros s.
  - split; [intros _; by exists s | intros _; by destruct s].
  - destruct s as [|b s]; simpl.
    + split; [discriminate | intros [rest H]; by rewrite append_cons in H].
    + destruct (Ascii.ascii_dec a b) as [->|Hne].
      * rewrite IH. split; intros [rest H]; exists rest;
          rewrite append_cons in *; congruence.
      * split; [discriminate|].
        intros [rest H]; rewrite append_cons in H; congruence.
Qed.

Lemma skip_app (w rest : string) : JS.skip (String.length w) (w +:+ rest) = rest.
Proof. induction w; [by destruct rest | by rewrite append_cons]. Qed.

Lemma append_empty_r (s : string) : s +:+ "" = s.
Proof. induction s; [done | rewrite append_cons; congruence]. Qed.

Lemma replace_unfold (pat rep s : string) :
  JS.replace pat rep s =
    if String.prefix pat s then rep +:+ JS.skip (String.length pat) s
    else match s with
         | EmptyString => EmptyString
         | String c s' => String c (JS.replace pat rep s')
         end.
Proof. by destruct s. Qed.

(** Removing the first occurrence of a word leaves nothing only when
    the string is empty or is that word. *)
Lemma append_eq_self (s rest : string) : s +:+ rest = s → rest = "".
Proof.
  induction s as [|c s IH]; [done|]. rewrite append_cons. intros [=]. auto.
Qed.

Lemma replace_nothing_left (pat s : string) :
  pat ≠ "" → JS.replace pat "" s = "" ↔ s = "" ∨ s = pat.
Proof.
  intros Hpat. rewrite replace_unfold.
  destruct (String.prefix pat s) eqn:Hpre.
  - apply prefix_app in Hpre as [rest ->]. rewrite skip_app.
    change ("" +:+ rest) with rest. split.
    + intros ->. right. apply append_empty_r.
    + intros [H|H].
      * destruct pat; [done | by rewrite append_cons in H].
      * by apply append_eq_self in H.
  - destruct s as [|c s]; [by split; auto|]. split; [discriminate|].
    intros [H|H]; [discriminate H|]. exfalso. subst pat.
    assert (String.prefix (String c s) (String c s) = true) as Hp
      by (apply prefix_app; exists ""; by rewrite append_empty_r).
    rewrite Hp in Hpre. discriminate.
Qed.

(** X1: The listing is the limited one exactly for a request without the
    Authorization header, with an empty one, or with the bare scheme
    "Bearer "; every other header value, whatever its scheme, selects the
    full listing. *)
Theorem listing_is_limited_for_three_headers_only (authorization : option string)
    (st : Store) :
  (authorization = None ∨ authorization = Some "" ∨ authorization = Some "Bearer " →
     PostsRouter.listPosts authorization st =
       (json (PostList (PostsRouter.limitedView <$> PostsRouter.findSorted st)), st)) ∧
  (authorization ≠ None → authorization ≠ Some "" →
   authorization ≠ Some "Bearer " →
     PostsRouter.listPosts authorization st =
       (json (PostList (PostsRouter.fullView (users st) <$> PostsRouter.findSorted st)),
        st)).
Proof.
  assert (Hiff : JS.truthy (PostsRouter.bearerToken authorization) = false ↔
                 authorization = None ∨ authorization = Some "" ∨
                 authorization = Some "Bearer ").
  { destruct authorization as [h|]; simpl.
    - rewrite negb_false_iff, String.eqb_eq, replace_nothing_left by done.
      split; [intros [->| ->]; auto |].
      intros [H|[H|H]]; [discriminate H | | ]; injection H as ->; auto.
    - split; auto. }
  split.
  - intros H. apply listPosts_limited. by apply Hiff.
  - intros H1 H2 H3. apply listPosts_full. apply not_false_iff_true.
    rewrite Hiff. intros [?|[?|?]]; done.
Qed.

Lemma listing_is_limited_for_three_headers_only_witness :
  Some "Basic dXNlcjpwYXNz" ≠ Some "Bearer " ∧
  PostsRouter.listPosts (Some "Basic dXNlcjpwYXNz") Sample.small =
    (json (PostList (PostsRouter.fullView (users Sample.small)
                       <$> PostsRouter.findSorted Sample.small)), Sample.small) ∧
  PostsRouter.listPosts (Some "Bearer ") Sample.small =
    (json (PostList (PostsRouter.limitedView <$> PostsRouter.findSorted Sample.small)),
     Sample.small).
Proof.
  split; [discriminate|]. split.
  - apply (proj2 (listing_is_limited_for_three_headers_only
                    (Some "Basic dXNlcjpwYXNz") Sample.small)); discriminate.
  - apply (proj1 (listing_is_limited_for_three_headers_only
                    (Some "Bearer ") Sample.small)). right. right. reflexivity.
Defined.

(** ** The order and the size of the listing *)

#[local] Instance Post_newer_trans : Transitive Post.newer.
Proof. intros a b c. unfold Post.newer. lia. Qed.

#[local] Instance Post_newer_total : Total Post.newer.
Proof. intros a b. unfold Post.newer. lia. Qed.

#[local] Instance Comment_newer_trans : Transitive Comment.newer.
Proof. intros a b c. unfold Comment.newer. lia. Qed.

#[local] Instance Comment_newer_total : Total Comment.newer.
Proof. intros a b. unfold Comment.newer. lia. Qed.

Lemma listPosts_views (authorization : option string) (st : Store) :
  ∃ view, listing (PostsRouter.listPosts authorization st).1
          = view <$> PostsRouter.findSorted st ∧
          ∀ p, v_createdAt (view p) = Post.createdAt p.
Proof.
  unfold PostsRouter.listPosts.
  exists (λ post, if JS.truthy (PostsRouter.bearerToken authorization)
                  then PostsRouter.fullView (users st) post
                  else PostsRouter.limitedView post).
  split; [done|]. intros p. by destruct (JS.truthy _).
Qed.

(** X2: Whoever asks, the listing holds the view of each stored post
    once and nothing else: it is a rearrangement of the views of the
    stored documents, one per document (there is no paging), in which
    every entry is at least as recent as all the entries after it; the
    store is not modified. *)
Theorem listing_is_complete_and_newest_first (authorization : option string)
    (st : Store) :
  listing (PostsRouter.listPosts authorization st).1
    ≡ₚ (λ post, if JS.truthy (PostsRouter.bearerToken authorization)
                then PostsRouter.fullView (users st) post
                else PostsRouter.limitedView post)
       <$> (map_to_list (posts st)).*2 ∧
  length (listing (PostsRouter.listPosts authorization st).1) = size (posts st) ∧
  StronglySorted (λ v w, (v_createdAt w ≤ v_createdAt v)%N)
                 (listing (PostsRouter.listPosts authorization st).1) ∧
  (PostsRouter.listPosts authorization st).2 = st.
Proof.
  split.
  { unfold PostsRouter.listPosts.
    change (json ?b, st).1 with (json b). rewrite listing_json.
    unfold PostsRouter.findSorted. by rewrite merge_sort_Permutation. }
  destruct (listPosts_views authorization st) as (view & -> & Hview).
  split; [|split; [|done]].
  - rewrite length_fmap. unfold PostsRouter.findSorted.
    rewrite merge_sort_Permutation, length_fmap. apply length_map_to_list.
  - apply (StronglySorted_fmap _ Post.newer).
    + intros x y Hxy. rewrite !Hview. exact Hxy.
    + apply StronglySorted_merge_sort; apply _.
Qed.

(** X3: The text shown to the public is the first 150 characters of the
    content, or all of it when it is shorter, followed by three dots: it
    has [min 150 n + 3] characters for a content of [n] characters. *)
Theorem limited_content_is_a_marked_prefix (p : Post.t) :
  ∃ shown rest,
    Post.content p = shown +:+ rest ∧
    String.length shown = 150 `min` String.length (Post.content p) ∧
    v_content (PostsRouter.limitedView p) = shown +:+ "...".
Proof.
  assert (H : ∀ n s, ∃ rest, s = String.substring 0 n s +:+ rest ∧
              String.length (String.substring 0 n s) = n `min` String.length s).
  { induction n as [|n IH]; intros [|c s]; simpl.
    - by exists "".
    - by eexists.
    - by exists "".
    - destruct (IH s) as (rest & Hs & Hl). exists rest.
      rewrite append_cons. split; [congruence | lia]. }
  destruct (H 150 (Post.content p)) as (rest & Hs & Hl).
  exists (String.substring 0 150 (Post.content p)), rest. done.
Qed.

(** ** Creating, reading and deleting posts *)

Lemma createPost_valid (user : User.t) (title content : string)
    (file : option string) (newId : ObjectId) (now : Date) (st : Store) :
  title ≠ "" → content ≠ "" → posts st !! newId = None →
  PostsRouter.createPost user (Some title) (Some content) file newId now st
  = (mkResponse Created
       (PostDoc (Post.mk newId title content
                         (from_option PostsRouter.uploadPath "" file)
                         (User._id user) (User.username user) now now)),
     setPosts (<[newId := Post.mk newId title content
                             (from_option PostsRouter.uploadPath "" file)
                             (User._id user) (User.username user) now now]>
                 (posts st)) st).
Proof.
  intros Ht Hc Hfresh. unfold PostsRouter.createPost, JS.falsy.
  rewrite (proj2 (truthy_Some title) Ht), (proj2 (truthy_Some content) Hc).
  simpl. rewrite bool_decide_eq_true_2 by done. by destruct file.
Qed.

Lemma deletePost_authorized (user : User.t) (id : ObjectId) (post : Post.t)
    (st : Store) :
  posts st !! id = Some post →
  User._id user = Post.author post ∨ User.role user = RoleAdmin →
  PostsRouter.deletePost user id st =
    (json (Message "Post deleted successfully"),
     setPosts (delete id (posts st)) st).
Proof.
  intros Hp Hok. unfold PostsRouter.deletePost. rewrite Hp.
  by rewrite (authorized_guard _ _ Hok).
Qed.

(** X4: A valid [createPost] with an unused identifier answers 201 with the
    new document: it carries the title and content as given, the actor's
    id and username as [author] and [authorName], the upload path of the
    file or the empty string, and the time of the request in both
    timestamps.  It is stored under its id, no other post is touched, and
    reading it back with [getPost] answers 200 with that same document. *)
Theorem created_post_is_stored_and_read_back (user reader : User.t)
    (title content : string) (file : option string) (newId : ObjectId)
    (now : Date) (st : Store) :
  title ≠ "" → content ≠ "" → posts st !! newId = None →
  let post := Post.mk newId title content
                      (from_option PostsRouter.uploadPath "" file)
                      (User._id user) (User.username user) now now in
  let st' := (PostsRouter.createPost user (Some title) (Some content) file
                newId now st).2 in
  PostsRouter.createPost user (Some title) (Some content) file newId now st
    = (mkResponse Created (PostDoc post),
       setPosts (<[newId := post]> (posts st)) st) ∧
  (∀ j, j ≠ newId → posts st' !! j = posts st !! j) ∧
  PostsRouter.getPost reader newId st'
    = (json (PostPopulated post (populate (users st) (User._id user))), st').
Proof.
  intros Ht Hc Hfresh post st'.
  pose proof (createPost_valid user title content file newId now st Ht Hc
                Hfresh) as Hcreate.
  subst st'. rewrite Hcreate. split; [done|]. split.
  - intros j Hj. simpl. by rewrite lookup_insert_ne.
  - unfold PostsRouter.getPost. simpl. by rewrite lookup_insert_eq.
Qed.

Lemma created_post_is_stored_and_read_back_witness :
  posts Sample.store !! "64b0f1a2c3d4e5f6010203a3" = None ∧
  ∃ post st',
    PostsRouter.createPost Sample.bob (Some "News") (Some "Plenty")
        (Some "image-1700000000000-42.png") "64b0f1a2c3d4e5f6010203a3" 4000
        Sample.store
      = (mkResponse Created (PostDoc post), st') ∧
    Post.image post = "/uploads/image-1700000000000-42.png" ∧
    Post.author post = User._id Sample.bob ∧
    PostsRouter.getPost Sample.alice "64b0f1a2c3d4e5f6010203a3" st'
      = (json (PostPopulated post (Some (mkRef (User._id Sample.bob) "bob"))), st').
Proof.
  assert (H : posts Sample.store !! "64b0f1a2c3d4e5f6010203a3" = None)
    by (vm_compute; reflexivity).
  split; [exact H|].
  destruct (created_post_is_stored_and_read_back Sample.bob Sample.alice
              "News" "Plenty" (Some "image-1700000000000-42.png")
              "64b0f1a2c3d4e5f6010203a3" 4000 Sample.store
              ltac:(discriminate) ltac:(discriminate) H)
    as (Hc & _ & Hg).
  eexists _, _. split; [exact Hc|]. split; [reflexivity|].
  split; [reflexivity|]. rewrite Hc in Hg. exact Hg.
Defined.

Lemma findSorted_nonempty_head (st : Store) (p : Post.t) :
  p ∈ PostsRouter.findSorted st →
  (∀ q, q ∈ PostsRouter.findSorted st → q ≠ p →
        (Post.createdAt q < Post.createdAt p)%N) →
  head (PostsRouter.findSorted st) = Some p.
Proof.
  intros Hin Hlate.
  pose proof (StronglySorted_merge_sort Post.newer (map_to_list (posts st)).*2)
    as Hsorted.
  fold (PostsRouter.findSorted st) in Hsorted.
  destruct (PostsRouter.findSorted st) as [|h t]; [by inversion Hin|].
  simpl. f_equal. destruct (decide (h = p)) as [|Hne]; [done|]. exfalso.
  apply elem_of_cons in Hin as [?|Hin]; [done|].
  apply StronglySorted_cons in Hsorted as [Hall _].
  pose proof (proj1 (Forall_forall _ _) Hall p Hin) as Hnewer.
  unfold Post.newer in Hnewer.
  pose proof (Hlate h (list_elem_of_here _ _) Hne). lia.
Qed.

(** X5: A post created at a time later than the creation time of every
    stored post is the first entry of the next listing, in the view that
    the request selects. *)
Theorem created_post_heads_the_listing (user : User.t) (title content : string)
    (file : option string) (newId : ObjectId) (now : Date) (st : Store)
    (authorization : option string) :
  title ≠ "" → content ≠ "" → posts st !! newId = None →
  (∀ id p, posts st !! id = Some p → (Post.createdAt p < now)%N) →
  let post := Post.mk newId title content
                      (from_option PostsRouter.uploadPath "" file)
                      (User._id user) (User.username user) now now in
  let st' := (PostsRouter.createPost user (Some title) (Some content) file
                newId now st).2 in
  head (listing (PostsRouter.listPosts authorization st').1)
  = Some (if JS.truthy (PostsRouter.bearerToken authorization)
          then PostsRouter.fullView (users st) post
          else PostsRouter.limitedView post).
Proof.
  intros Ht Hc Hfresh Hlate post st0.
  pose proof (createPost_valid user title content file newId now st Ht Hc
                Hfresh) as Hcreate.
  set (st' := setPosts (<[newId:=post]> (posts st)) st).
  assert (Hst : st0 = st') by (subst st0; by rewrite Hcreate).
  rewrite Hst. clear Hst st0 Hcreate.
  assert (Hhead : head (PostsRouter.findSorted st') = Some post).
  { apply findSorted_nonempty_head.
    - apply elem_of_findSorted. exists newId. apply lookup_insert_eq.
    - intros q Hq Hne. apply elem_of_findSorted in Hq as [id Hid].
      simpl in Hid. destruct (decide (newId = id)) as [->|Hid'].
      + rewrite lookup_insert_eq in Hid. congruence.
      + rewrite lookup_insert_ne in Hid by done. exact (Hlate id q Hid). }
  destruct (PostsRouter.findSorted st') as [|h t] eqn:Hsorted; [discriminate|].
  injection Hhead as ->.
  unfold PostsRouter.listPosts. rewrite Hsorted.
  change (users st') with (users st). by destruct (JS.truthy _).
Qed.

Lemma created_post_heads_the_listing_witness :
  head (listing (PostsRouter.listPosts None
          (PostsRouter.createPost Sample.bob (Some "News") (Some "Plenty") None
             "64b0f1a2c3d4e5f6010203a3" 4000 Sample.store).2).1)
  = Some (PostsRouter.limitedView
            (Post.mk "64b0f1a2c3d4e5f6010203a3" "News" "Plenty" ""
                     (User._id Sample.bob) "bob" 4000 4000)).
Proof.
  apply (created_post_heads_the_listing Sample.bob "News" "Plenty" None
           "64b0f1a2c3d4e5f6010203a3" 4000 Sample.store None);
    [discriminate | discriminate | vm_compute; reflexivity |].
  intros id p Hp.
  assert (Hin : p ∈ PostsRouter.findSorted Sample.store)
    by (apply elem_of_findSorted; eauto).
  vm_compute in Hin. set_unfold in Hin.
  destruct Hin as [->|[->|[]]]; vm_compute; reflexivity.
Defined.

(** Entered with an ObjectId, [deletePost] answers NotFound when no post
    has it; on a stored post it succeeds for the owner and for any admin,
    removing that post and no other, after which [getPost] on the id
    answers NotFound; for an actor who is neither it answers Forbidden
    and changes nothing. *)
Lemma deletePost_cases (user reader : User.t) (id : ObjectId)
    (st : Store) :
  (posts st !! id = None →
     PostsRouter.deletePost user id st = (fail NotFound "Post not found", st)) ∧
  (∀ post, posts st !! id = Some post →
     (User._id user = Post.author post ∨ User.role user = RoleAdmin →
        PostsRouter.deletePost user id st =
          (json (Message "Post deleted successfully"),
           setPosts (delete id (posts st)) st) ∧
        (∀ j, j ≠ id →
           posts (PostsRouter.deletePost user id st).2 !! j = posts st !! j) ∧
        (PostsRouter.getPost reader id (PostsRouter.deletePost user id st).2).1
          = fail NotFound "Post not found") ∧
     (User._id user ≠ Post.author post → User.role user ≠ RoleAdmin →
        PostsRouter.deletePost user id st =
          (fail Forbidden "You can only delete your own posts", st))).
Proof.
  unfold PostsRouter.deletePost. split.
  - by intros ->.
  - intros post ->. split.
    + intros Hok. rewrite (authorized_guard _ _ Hok). split; [done|]. split.
      * intros j Hj. simpl. by apply lookup_delete_ne.
      * unfold PostsRouter.getPost. simpl. by rewrite lookup_delete_eq.
    + intros Hne Hna. unfold User.isAdmin.
      rewrite (proj2 (String.eqb_neq _ _)) by congruence.
      by rewrite (bool_decide_eq_false_2 _ Hna).
Qed.

(** X6: [DELETE /posts/:id] answers 500, deleting nothing, when the id
    is not an ObjectId.  When it is one, under any spelling, the route
    answers NotFound if no post has that ObjectId; on the post that has
    it, it succeeds for the owner and for every admin, removing that post
    and no other, after which [GET /posts/:id] with the same id answers
    NotFound; for an actor who is neither it answers Forbidden and
    changes nothing. *)
Theorem delete_post_by_owner_or_admin
    (castObjectId : string → option ObjectId) (user reader : User.t)
    (id : string) (st : Store) :
  (castObjectId id = None →
     Http.deletePost castObjectId user id st =
       (fail PersistenceError "Error deleting post", st)) ∧
  (∀ oid, castObjectId id = Some oid →
     (posts st !! oid = None →
        Http.deletePost castObjectId user id st =
          (fail NotFound "Post not found", st)) ∧
     (∀ post, posts st !! oid = Some post →
        (User._id user = Post.author post ∨ User.role user = RoleAdmin →
           Http.deletePost castObjectId user id st =
             (json (Message "Post deleted successfully"),
              setPosts (delete oid (posts st)) st) ∧
           (∀ j, j ≠ oid →
              posts (Http.deletePost castObjectId user id st).2 !! j
              = posts st !! j) ∧
           (Http.getPost castObjectId reader id
              (Http.deletePost castObjectId user id st).2).1
             = fail NotFound "Post not found") ∧
        (User._id user ≠ Post.author post → User.role user ≠ RoleAdmin →
           Http.deletePost castObjectId user id st =
             (fail Forbidden "You can only delete your own posts", st)))).
Proof.
  unfold Http.deletePost, Http.getPost. split.
  - by intros ->.
  - intros oid ->. apply deletePost_cases.
Qed.

Lemma delete_post_by_owner_or_admin_witness :
  Sample.castObjectId "64B0F1A2C3D4E5F6010203A1" = Some (Post._id Sample.hello) ∧
  posts Sample.store !! Post._id Sample.hello = Some Sample.hello ∧
  User._id Sample.root ≠ Post.author Sample.hello ∧
  status (Http.deletePost Sample.castObjectId Sample.root
            "64B0F1A2C3D4E5F6010203A1" Sample.store).1 = OK ∧
  posts (Http.deletePost Sample.castObjectId Sample.root
           "64B0F1A2C3D4E5F6010203A1" Sample.store).2
    !! Post._id Sample.essay = Some Sample.essay ∧
  Http.deletePost Sample.castObjectId Sample.bob "64B0F1A2C3D4E5F6010203A1"
      Sample.store
    = (fail Forbidden "You can only delete your own posts", Sample.store) ∧
  Http.deletePost Sample.castObjectId Sample.bob "64b0f1a2c3d4e5f6010203af"
      Sample.store
    = (fail NotFound "Post not found", Sample.store) ∧
  Http.deletePost Sample.castObjectId Sample.bob "not-an-id" Sample.store
    = (fail PersistenceError "Error deleting post", Sample.store).
Proof.
  assert (Hup : Sample.castObjectId "64B0F1A2C3D4E5F6010203A1"
                = Some (Post._id Sample.hello)) by (vm_compute; reflexivity).
  assert (H : posts Sample.store !! Post._id Sample.hello = Some Sample.hello)
    by (vm_compute; reflexivity).
  split; [exact Hup|]. split; [exact H|]. split; [discriminate|].
  destruct (proj1 (proj2 (proj2 (delete_post_by_owner_or_admin
              Sample.castObjectId Sample.root Sample.bob
              "64B0F1A2C3D4E5F6010203A1" Sample.store) _ Hup) _ H)
              (or_intror eq_refl)) as (Heq & Hothers & _).
  split; [by rewrite Heq|]. split.
  { rewrite Hothers by discriminate. vm_compute. reflexivity. }
  split.
  { apply (proj2 (proj2 (proj2 (delete_post_by_owner_or_admin
             Sample.castObjectId Sample.bob Sample.bob
             "64B0F1A2C3D4E5F6010203A1" Sample.store) _ Hup) _ H));
      discriminate. }
  split.
  { apply (proj1 (proj2 (delete_post_by_owner_or_admin Sample.castObjectId
                           Sample.bob Sample.bob "64b0f1a2c3d4e5f6010203af"
                           Sample.store)
                    "64b0f1a2c3d4e5f6010203af" ltac:(vm_compute; reflexivity))).
    vm_compute. reflexivity. }
  apply (proj1 (delete_post_by_owner_or_admin Sample.castObjectId Sample.bob
                  Sample.bob "not-an-id" Sample.store)).
  vm_compute. reflexivity.
Defined.

(** X7: Deleting a post does not delete its comments: the comments
    collection is left as it was and [listComments] for the deleted post
    still answers with the same list, while a new comment on that post is
    refused with NotFound. *)
Theorem deleted_post_keeps_its_comments (user commenter : User.t)
    (id : ObjectId) (post : Post.t) (content : string)
    (newId : ObjectId) (now : Date) (st : Store) :
  posts st !! id = Some post →
  User._id user = Post.author post ∨ User.role user = RoleAdmin →
  content ≠ "" → id ≠ "" →
  let st' := (PostsRouter.deletePost user id st).2 in
  comments st' = comments st ∧
  (CommentsRouter.listComments id st').1 = (CommentsRouter.listComments id st).1 ∧
  CommentsRouter.createComment commenter (Some content) (Some id) newId now st'
    = (fail NotFound "Post not found", st').
Proof.
  intros Hp Hok Hc Hid st'.
  pose proof (deletePost_authorized user id post st Hp Hok) as Hdel.
  subst st'. rewrite Hdel. simpl snd. split; [done|]. split; [done|].
  unfold CommentsRouter.createComment, JS.falsy.
  rewrite (proj2 (truthy_Some content) Hc), (proj2 (truthy_Some id) Hid).
  simpl. by rewrite lookup_delete_eq.
Qed.

Lemma deleted_post_keeps_its_comments_witness :
  let st' := (PostsRouter.deletePost Sample.alice (Post._id Sample.hello)
                Sample.store).2 in
  comments st' !! Comment._id Sample.remark = Some Sample.remark ∧
  Comment.post Sample.remark = Post._id Sample.hello ∧
  posts st' !! Post._id Sample.hello = None ∧
  commentListing (CommentsRouter.listComments (Post._id Sample.hello) st').1
    = [(Sample.remark, Some (mkRef (User._id Sample.bob) "bob"))].
Proof.
  intros st'.
  destruct (deleted_post_keeps_its_comments Sample.alice Sample.bob
              (Post._id Sample.hello) Sample.hello "More"
              "64b0f1a2c3d4e5f6010203c2" 5000 Sample.store
              ltac:(vm_compute; reflexivity) (or_introl eq_refl)
              ltac:(discriminate) ltac:(discriminate))
    as (Hcs & Hlist & _).
  fold st' in Hcs, Hlist. split; [by rewrite Hcs|]. split; [reflexivity|].
  split; [vm_compute; reflexivity|]. rewrite Hlist. vm_compute. reflexivity.
Defined.

(** Entered with an ObjectId, [updatePost] answers NotFound when no post
    has it and Forbidden when the actor is neither the owner nor an
    admin; nothing is written in either case.  An admin who is not the
    owner is let through, unlike in [updateComment]. *)
Lemma updatePost_refusal_cases (user : User.t) (id : ObjectId)
    (title content file : option string) (now : Date) (st : Store) :
  (posts st !! id = None →
     PostsRouter.updatePost user id title content file now st
       = (fail NotFound "Post not found", st)) ∧
  (∀ post, posts st !! id = Some post →
     (User._id user ≠ Post.author post → User.role user ≠ RoleAdmin →
        PostsRouter.updatePost user id title content file now st
          = (fail Forbidden "You can only edit your own posts", st)) ∧
     (User.role user = RoleAdmin →
        status (PostsRouter.updatePost user id title content file now st).1 = OK)).
Proof.
  split.
  - intros H. unfold PostsRouter.updatePost. by rewrite H.
  - intros post Hp. split.
    + intros. by apply (updatePost_forbidden _ _ _ _ _ _ _ post).
    + intros Ha. unfold PostsRouter.updatePost. rewrite Hp.
      rewrite (authorized_guard _ _ (or_intror Ha)).
      by destruct (PostsRouter.savePost _ _ _ _ _).
Qed.

(** X8: [PUT /posts/:id] answers 500 when the id is not an ObjectId,
    NotFound when it is an ObjectId that no post has, and Forbidden when
    the actor is neither the owner of the post nor an admin; nothing is
    written in any of these cases.  An admin who is not the owner is let
    through, unlike in the route that edits a comment. *)
Theorem update_post_refusals (castObjectId : string → option ObjectId)
    (user : User.t) (id : string) (title content file : option string)
    (now : Date) (st : Store) :
  (castObjectId id = None →
     Http.updatePost castObjectId user id title content file now st
       = (fail PersistenceError "Error updating post", st)) ∧
  (∀ oid, castObjectId id = Some oid →
     (posts st !! oid = None →
        Http.updatePost castObjectId user id title content file now st
          = (fail NotFound "Post not found", st)) ∧
     (∀ post, posts st !! oid = Some post →
        (User._id user ≠ Post.author post → User.role user ≠ RoleAdmin →
           Http.updatePost castObjectId user id title content file now st
             = (fail Forbidden "You can only edit your own posts", st)) ∧
        (User.role user = RoleAdmin →
           status (Http.updatePost castObjectId user id title content file
                     now st).1 = OK))).
Proof.
  unfold Http.updatePost. split.
  - by intros ->.
  - intros oid ->. apply updatePost_refusal_cases.
Qed.

Lemma update_post_refusals_witness :
  Sample.castObjectId "64B0F1A2C3D4E5F6010203A1" = Some (Post._id Sample.hello) ∧
  posts Sample.store !! Post._id Sample.hello = Some Sample.hello ∧
  Http.updatePost Sample.castObjectId Sample.bob "64B0F1A2C3D4E5F6010203A1"
      (Some "Mine") None None 5000 Sample.store
    = (fail Forbidden "You can only edit your own posts", Sample.store) ∧
  status (Http.updatePost Sample.castObjectId Sample.root
            "64B0F1A2C3D4E5F6010203A1" (Some "Moderated") None None 5000
            Sample.store).1 = OK ∧
  Http.updatePost Sample.castObjectId Sample.alice "64b0f1a2c3d4e5f6010203af"
      (Some "Mine") None None 5000 Sample.store
    = (fail NotFound "Post not found", Sample.store) ∧
  Http.updatePost Sample.castObjectId Sample.alice "not-an-id" (Some "Mine")
      None None 5000 Sample.store
    = (fail PersistenceError "Error updating post", Sample.store).
Proof.
  assert (Hup : Sample.castObjectId "64B0F1A2C3D4E5F6010203A1"
                = Some (Post._id Sample.hello)) by (vm_compute; reflexivity).
  assert (H : posts Sample.store !! Post._id Sample.hello = Some Sample.hello)
    by (vm_compute; reflexivity).
  split; [exact Hup|]. split; [exact H|]. split.
  { apply (proj1 (proj2 (proj2 (update_post_refusals Sample.castObjectId
             Sample.bob "64B0F1A2C3D4E5F6010203A1" (Some "Mine") None None
             5000 Sample.store) _ Hup) _ H)); discriminate. }
  split.
  { apply (proj2 (proj2 (proj2 (update_post_refusals Sample.castObjectId
             Sample.root "64B0F1A2C3D4E5F6010203A1" (Some "Moderated") None
             None 5000 Sample.store) _ Hup) _ H)). reflexivity. }
  split.
  { apply (proj1 (proj2 (update_post_refusals Sample.castObjectId Sample.alice
                           "64b0f1a2c3d4e5f6010203af" (Some "Mine") None None
                           5000 Sample.store)
                    "64b0f1a2c3d4e5f6010203af" ltac:(vm_compute; reflexivity))).
    vm_compute. reflexivity. }
  apply (proj1 (update_post_refusals Sample.castObjectId Sample.alice
                  "not-an-id" (Some "Mine") None None 5000 Sample.store)).
  vm_compute. reflexivity.
Defined.

(** ** Listing, creating and editing comments *)

Lemma elem_of_listComments (postId : ObjectId) (st : Store) (c : Comment.t)
    (a : option AuthorRef) :
  (c, a) ∈ commentListing (CommentsRouter.listComments postId st).1 ↔
  (∃ id, comments st !! id = Some c) ∧ Comment.post c = postId ∧
  a = populate (users st) (Comment.author c).
Proof.
  unfold CommentsRouter.listComments, commentListing. simpl.
  rewrite list_elem_of_fmap. setoid_rewrite merge_sort_Permutation.
  setoid_rewrite list_elem_of_filter. setoid_rewrite list_elem_of_fmap.
  split.
  - intros (c' & [= -> ->] & Hpost & [id q] & -> & Hin).
    apply elem_of_map_to_list in Hin. eauto.
  - intros ([id Hid] & Hpost & ->). exists c. split; [done|]. split; [done|].
    exists (id, c). split; [done|]. by apply elem_of_map_to_list.
Qed.




Lemma trim_empty : JS.trim "" = "".
Proof. reflexivity. Qed.

Lemma createComment_valid (user : User.t) (content postId : string)
    (newId : ObjectId) (now : Date) (st : Store) :
  content ≠ "" → postId ≠ "" → is_Some (posts st !! postId) →
  CommentsRouter.createComment user (Some content) (Some postId) newId now st =
    let comment := Comment.mk newId (JS.trim content) postId (User._id user)
                              (User.username user) now now in
    if Comment.validate comment && bool_decide (comments st !! newId = None) then
      (mkResponse Created
         (CommentPopulated comment (populate (users st) (User._id user))),
       setComments (<[newId := comment]> (comments st)) st)
    else (fail PersistenceError "Error creating comment", st).
Proof.
  intros Hc Hp [post Hpost]. unfold CommentsRouter.createComment, JS.falsy.
  rewrite (proj2 (truthy_Some content) Hc), (proj2 (truthy_Some postId) Hp).
  simpl. by rewrite Hpost.
Qed.

(** X10: A comment with a content that is not blank, on an existing post, by
    an actor with a username, under an unused identifier, is answered 201
    and stored with the content trimmed, the post id, the actor's id and
    username and the time of the request; no other comment is touched,
    and the new comment is in the next [listComments] of its post. *)
Theorem created_comment_is_stored_and_listed (user : User.t)
    (content postId : string) (newId : ObjectId) (now : Date) (st : Store) :
  JS.trim content ≠ "" → postId ≠ "" → is_Some (posts st !! postId) →
  User.username user ≠ "" → comments st !! newId = None →
  let comment := Comment.mk newId (JS.trim content) postId (User._id user)
                            (User.username user) now now in
  let st' := (CommentsRouter.createComment user (Some content) (Some postId)
                newId now st).2 in
  CommentsRouter.createComment user (Some content) (Some postId) newId now st
    = (mkResponse Created
         (CommentPopulated comment (populate (users st) (User._id user))),
       setComments (<[newId := comment]> (comments st)) st) ∧
  (∀ j, j ≠ newId → comments st' !! j = comments st !! j) ∧
  (comment, populate (users st) (User._id user))
    ∈ commentListing (CommentsRouter.listComments postId st').1.
Proof.
  intros Htrim Hp Hpost Hname Hfresh comment st'.
  assert (Hc : content ≠ "") by (intros ->; by apply Htrim).
  assert (Hcreate :
    CommentsRouter.createComment user (Some content) (Some postId) newId now st
    = (mkResponse Created
         (CommentPopulated comment (populate (users st) (User._id user))),
       setComments (<[newId := comment]> (comments st)) st)).
  { rewrite createComment_valid by done. cbv zeta.
    unfold Comment.validate. simpl.
    rewrite (proj2 (String.eqb_neq _ _) Htrim), (proj2 (String.eqb_neq _ _) Hname).
    simpl. by rewrite bool_decide_eq_true_2. }
  subst st'. rewrite Hcreate. split; [done|]. split.
  - intros j Hj. simpl. by rewrite lookup_insert_ne.
  - apply elem_of_listComments. split; [|done].
    exists newId. simpl. apply lookup_insert_eq.
Qed.

Lemma created_comment_is_stored_and_listed_witness :
  JS.trim "  Well said " = "Well said" ∧
  comments Sample.store !! "64b0f1a2c3d4e5f6010203c2" = None ∧
  (Comment.mk "64b0f1a2c3d4e5f6010203c2" "Well said" (Post._id Sample.hello)
              (User._id Sample.alice) "alice" 4000 4000,
   Some (mkRef (User._id Sample.alice) "alice"))
    ∈ commentListing
        (CommentsRouter.listComments (Post._id Sample.hello)
           (CommentsRouter.createComment Sample.alice (Some "  Well said ")
              (Some (Post._id Sample.hello)) "64b0f1a2c3d4e5f6010203c2" 4000
              Sample.store).2).1.
Proof.
  assert (Hfresh : comments Sample.store !! "64b0f1a2c3d4e5f6010203c2" = None)
    by (vm_compute; reflexivity).
  split; [reflexivity|]. split; [exact Hfresh|].
  apply (created_comment_is_stored_and_listed Sample.alice "  Well said "
           (Post._id Sample.hello) "64b0f1a2c3d4e5f6010203c2" 4000 Sample.store);
    [discriminate | discriminate | vm_compute; eauto | discriminate | exact Hfresh].
Defined.

(** X11: A content made of white space only passes the handler's test, which
    sees a non-empty string, and is then refused by the schema when the
    document is saved: on an existing post the answer is 500, not 400,
    and nothing is stored. *)
Theorem blank_comment_is_a_server_error (user : User.t)
    (content postId : string) (newId : ObjectId) (now : Date) (st : Store) :
  content ≠ "" → JS.trim content = "" →
  postId ≠ "" → is_Some (posts st !! postId) →
  CommentsRouter.createComment user (Some content) (Some postId) newId now st
    = (fail PersistenceError "Error creating comment", st).
Proof.
  intros Hc Htrim Hp Hpost. rewrite createComment_valid by done. cbv zeta.
  unfold Comment.validate. simpl. by rewrite Htrim.
Qed.

Lemma blank_comment_is_a_server_error_witness :
  JS.trim "   " = "" ∧
  CommentsRouter.createComment Sample.alice (Some "   ")
      (Some (Post._id Sample.hello)) "64b0f1a2c3d4e5f6010203c2" 4000 Sample.store
    = (fail PersistenceError "Error creating comment", Sample.store).
Proof.
  split; [reflexivity|].
  apply blank_comment_is_a_server_error;
    [discriminate | reflexivity | discriminate | vm_compute; eauto].
Defined.

Lemma updateComment_own (user : User.t) (id : ObjectId) (comment : Comment.t)
    (content : option string) (now : Date) (st : Store) :
  comments st !! id = Some comment →
  Comment.author comment = User._id user →
  CommentsRouter.updateComment user id content now st =
    match CommentsRouter.saveContent id comment content now st with
    | Some (saved, st') =>
        (json (CommentPopulated saved
                 (populate (users st') (Comment.author saved))), st')
    | None => (fail PersistenceError "Error updating comment", st)
    end.
Proof.
  intros Hc Ha. unfold CommentsRouter.updateComment.
  by rewrite Hc, Ha, String.eqb_refl.
Qed.

(** X12: The author's edit with a content that is not blank answers 200 with
    the saved comment, which is the one stored under the id afterwards:
    its content is the new content, trimmed; its id, post, author, author
    name and creation time are as before; every other comment, the posts
    and the users are untouched. *)
Theorem own_comment_edit_replaces_content_only (user : User.t) (id : ObjectId)
    (comment : Comment.t) (content : string) (now : Date) (st : Store) :
  comments st !! id = Some comment →
  Comment.author comment = User._id user →
  JS.trim content ≠ "" → Comment.authorName comment ≠ "" →
  ∃ saved st',
    CommentsRouter.updateComment user id (Some content) now st
      = (json (CommentPopulated saved
                 (populate (users st) (Comment.author comment))), st') ∧
    comments st' !! id = Some saved ∧
    Comment.content saved = JS.trim content ∧
    Comment._id saved = Comment._id comment ∧
    Comment.post saved = Comment.post comment ∧
    Comment.author saved = Comment.author comment ∧
    Comment.authorName saved = Comment.authorName comment ∧
    Comment.createdAt saved = Comment.createdAt comment ∧
    (∀ j, j ≠ id → comments st' !! j = comments st !! j) ∧
    posts st' = posts st ∧ users st' = users st.
Proof.
  intros Hc Ha Htrim Hname. rewrite (updateComment_own _ _ comment) by done.
  unfold CommentsRouter.saveContent.
  assert (Hvalid : Comment.validate (Comment.setContent content comment) = true).
  { unfold Comment.validate. simpl.
    by rewrite (proj2 (String.eqb_neq _ _) Htrim),
               (proj2 (String.eqb_neq _ _) Hname). }
  rewrite Hvalid. case_bool_decide as Heq.
  - exists comment, st. split; [done|]. split; [done|].
    split; [by rewrite <- Heq at 1|]. done.
  - eexists _, _. split; [reflexivity|]. split; [apply lookup_insert_eq|].
    repeat split; try done.
    intros j Hj. simpl. by rewrite lookup_insert_ne.
Qed.

Lemma own_comment_edit_replaces_content_only_witness :
  comments Sample.store !! Comment._id Sample.remark = Some Sample.remark ∧
  ∃ saved st',
    CommentsRouter.updateComment Sample.bob (Comment._id Sample.remark)
        (Some " Very nice ") 5000 Sample.store
      = (json (CommentPopulated saved (Some (mkRef (User._id Sample.bob) "bob"))),
         st') ∧
    comments st' !! Comment._id Sample.remark = Some saved ∧
    Comment.content saved = "Very nice" ∧
    Comment.post saved = Post._id Sample.hello.
Proof.
  assert (H : comments Sample.store !! Comment._id Sample.remark = Some Sample.remark)
    by (vm_compute; reflexivity).
  split; [exact H|].
  destruct (own_comment_edit_replaces_content_only Sample.bob
              (Comment._id Sample.remark) Sample.remark " Very nice " 5000
              Sample.store H eq_refl ltac:(discriminate) ltac:(discriminate))
    as (saved & st' & Hr & Hs & Hcontent & _ & Hpost & _).
  exists saved, st'. split; [exact Hr|]. split; [exact Hs|].
  split; [exact Hcontent | exact Hpost].
Defined.

(** X13: [updateComment] has no test on the new content: the author's edit
    with a missing, empty or blank content is refused only when the
    document is saved, with 500, and the stored comment is unchanged. *)
Theorem blank_comment_edit_is_a_server_error (user : User.t) (id : ObjectId)
    (comment : Comment.t) (content : option string) (now : Date) (st : Store) :
  comments st !! id = Some comment →
  Comment.author comment = User._id user →
  content = None ∨ (∃ s, content = Some s ∧ JS.trim s = "") →
  CommentsRouter.updateComment user id content now st
    = (fail PersistenceError "Error updating comment", st).
Proof.
  intros Hc Ha Hblank. rewrite (updateComment_own _ _ comment) by done.
  unfold CommentsRouter.saveContent.
  destruct Hblank as [->|(s & -> & Htrim)]; [done|].
  unfold Comment.validate. simpl. by rewrite Htrim.
Qed.

Lemma blank_comment_edit_is_a_server_error_witness :
  comments Sample.store !! Comment._id Sample.remark = Some Sample.remark ∧
  CommentsRouter.updateComment Sample.bob (Comment._id Sample.remark) (Some "")
      5000 Sample.store
    = (fail PersistenceError "Error updating comment", Sample.store) ∧
  CommentsRouter.updateComment Sample.bob (Comment._id Sample.remark) None
      5000 Sample.store
    = (fail PersistenceError "Error updating comment", Sample.store).
Proof.
  assert (H : comments Sample.store !! Comment._id Sample.remark = Some Sample.remark)
    by (vm_compute; reflexivity).
  split; [exact H|]. split.
  - apply (blank_comment_edit_is_a_server_error _ _ Sample.remark);
      [exact H | reflexivity | right; by exists ""].
  - apply (blank_comment_edit_is_a_server_error _ _ Sample.remark);
      [exact H | reflexivity | by left].
Defined.

(** ** What the routes keep *)

Lemma trimEnd_idem (s : string) : JS.trimEnd (JS.trimEnd s) = JS.trimEnd s.
Proof.
  induction s as [|c s IH]; simpl; [done|].
  destruct (JS.is_space c && String.eqb (JS.trimEnd s) "") eqn:Hc; [done|].
  simpl. by rewrite IH, Hc.
Qed.

Lemma trimStart_head (s : string) :
  JS.trimStart s = "" ∨
  ∃ c t, JS.trimStart s = String c t ∧ JS.is_space c = false.
Proof.
  induction s as [|c s IH]; simpl; [by left|].
  destruct (JS.is_space c) eqn:Hc; [done|]. right. by exists c, s.
Qed.

(** Trimming a trimmed string changes nothing. *)
Lemma trim_idem (s : string) : JS.trim (JS.trim s) = JS.trim s.
Proof.
  unfold JS.trim.
  assert (H : JS.trimStart (JS.trimEnd (JS.trimStart s))
              = JS.trimEnd (JS.trimStart s)).
  { destruct (trimStart_head s) as [->|(c & t & -> & Hc)]; [done|].
    simpl. rewrite Hc. simpl. by rewrite Hc. }
  by rewrite H, trimEnd_idem.
Qed.

Ltac handler :=
  repeat (case_match || case_bool_decide); simplify_eq/=; try done.

Lemma routes_keep_users :
  keptByRoutes (λ st st', users st' = users st).
Proof.
  unfold keptByRoutes; split_and!; intros;
    unfold PostsRouter.listPosts, PostsRouter.getPost, PostsRouter.createPost,
      PostsRouter.updatePost, PostsRouter.savePost, PostsRouter.deletePost,
      CommentsRouter.listComments, CommentsRouter.createComment,
      CommentsRouter.updateComment, CommentsRouter.saveContent,
      CommentsRouter.deleteComment; handler.
Qed.

(** X14: No route writes to the users collection; the routes of the posts
    router leave the comments collection as it is (deleting a post
    included), and the routes of the comments router leave the posts
    collection as it is. *)
Theorem routes_write_to_their_own_collection :
  keptByRoutes (λ st st', users st' = users st) ∧
  (∀ authorization user id title content file newId now st,
     comments (PostsRouter.listPosts authorization st).2 = comments st ∧
     comments (PostsRouter.getPost user id st).2 = comments st ∧
     comments (PostsRouter.createPost user title content file newId now st).2
       = comments st ∧
     comments (PostsRouter.updatePost user id title content file now st).2
       = comments st ∧
     comments (PostsRouter.deletePost user id st).2 = comments st) ∧
  (∀ user id content postId newId now st,
     posts (CommentsRouter.listComments id st).2 = posts st ∧
     posts (CommentsRouter.createComment user content postId newId now st).2
       = posts st ∧
     posts (CommentsRouter.updateComment user id content now st).2 = posts st ∧
     posts (CommentsRouter.deleteComment user id st).2 = posts st).
Proof.
  split; [apply routes_keep_users|]. split.
  - intros. repeat split;
      unfold PostsRouter.listPosts, PostsRouter.getPost, PostsRouter.createPost,
        PostsRouter.updatePost, PostsRouter.savePost, PostsRouter.deletePost;
      handler.
  - intros. repeat split;
      auto using createComment_posts, updateComment_posts, deleteComment_posts.
Qed.

(** X15: Through every route, a comment that is in the store before and after
    the request has the same id, post, author, author name and creation
    time: an edit replaces the content and nothing else, and no route
    moves a comment to another post or hands it to another author. *)
Theorem routes_keep_comment_references : keptByRoutes commentStable.
Proof.
  assert (Hsame : ∀ st st', comments st' = comments st → commentStable st st').
  { intros st st' H id c c' Hc Hc'. rewrite H in Hc'. by simplify_eq. }
  unfold keptByRoutes; split_and!; intros;
    try (apply Hsame;
         unfold PostsRouter.listPosts, PostsRouter.getPost,
           PostsRouter.createPost, PostsRouter.updatePost, PostsRouter.savePost,
           PostsRouter.deletePost, CommentsRouter.listComments;
         by handler).
  - unfold CommentsRouter.createComment.
    destruct (_ || _); [by apply Hsame|].
    destruct (posts st !! _); [|by apply Hsame].
    destruct (Comment.validate _); [|by apply Hsame].
    case_bool_decide as Hfresh; [|by apply Hsame].
    intros j c c' Hc Hc'. simpl in Hc'.
    rewrite lookup_insert_ne in Hc' by congruence. by simplify_eq.
  - unfold CommentsRouter.updateComment, CommentsRouter.saveContent.
    destruct (comments st !! id) as [comment|] eqn:Hcomment; [|by apply Hsame].
    destruct (negb _); [by apply Hsame|].
    destruct content as [s|]; [|by apply Hsame].
    destruct (Comment.validate _); [|by apply Hsame].
    case_bool_decide; [by apply Hsame|].
    intros j c c' Hc Hc'. simpl in Hc'.
    destruct (decide (id = j)) as [->|Hne].
    + rewrite lookup_insert_eq in Hc'. by simplify_eq.
    + rewrite lookup_insert_ne in Hc' by done. by simplify_eq.
  - unfold CommentsRouter.deleteComment.
    destruct (comments st !! id) eqn:Hcomment; [|by apply Hsame].
    destruct (_ && _); [by apply Hsame|].
    intros j c c' Hc Hc'. simpl in Hc'.
    destruct (decide (id = j)) as [->|Hne].
    + by rewrite lookup_delete_eq in Hc'.
    + rewrite lookup_delete_ne in Hc' by done. by simplify_eq.
Qed.

Lemma keep_when_posts_same (P : Post.t → Prop) (st st' : Store) :
  posts st' = posts st →
  (∀ id p, posts st !! id = Some p → P p) →
  ∀ id p, posts st' !! id = Some p → P p.
Proof. intros -> H. exact H. Qed.

(** X16: A store in which every post has a non-empty title and a non-empty
    content stays so through every route: a post is created only with
    both, and an edit overwrites either only with a non-empty string. *)
Theorem routes_keep_posts_titled :
  keptByRoutes (λ st st', postsValid st → postsValid st').
Proof.
  unfold keptByRoutes, postsValid; split_and!; intros until st; intros Hvalid;
    try (apply (keep_when_posts_same _ st); [|exact Hvalid];
         auto using createComment_posts, updateComment_posts,
           deleteComment_posts;
         unfold PostsRouter.listPosts, PostsRouter.getPost; by handler).
  - unfold PostsRouter.createPost, JS.falsy.
    destruct (JS.truthy title) eqn:Ht; [|exact Hvalid].
    destruct (JS.truthy content) eqn:Hc; [|exact Hvalid]. simpl.
    case_bool_decide; [|exact Hvalid].
    intros j p Hp. simpl in Hp.
    destruct (decide (newId = j)) as [->|Hne].
    + rewrite lookup_insert_eq in Hp. injection Hp as <-. simpl.
      destruct title as [t|], content as [c|]; try discriminate.
      split; [by apply truthy_Some in Ht | by apply truthy_Some in Hc].
    + rewrite lookup_insert_ne in Hp by done. eauto.
  - unfold PostsRouter.updatePost.
    destruct (posts st !! id) as [post|] eqn:Hpost; [|exact Hvalid].
    destruct (_ && _); [exact Hvalid|].
    unfold PostsRouter.savePost. case_bool_decide; [exact Hvalid|].
    intros j p Hp. simpl in Hp.
    destruct (decide (id = j)) as [->|Hne].
    + rewrite lookup_insert_eq in Hp. injection Hp as <-.
      destruct (Hvalid _ _ Hpost) as [Ht Hc].
      destruct (assignFields_fields title content file post)
        as (Ht' & Hc' & _).
      cbv zeta in Ht', Hc'. simpl. rewrite Ht', Hc'. split.
      * destruct (JS.truthy title) eqn:E; [|done].
        destruct title; [by apply truthy_Some in E | discriminate].
      * destruct (JS.truthy content) eqn:E; [|done].
        destruct content; [by apply truthy_Some in E | discriminate].
    + rewrite lookup_insert_ne in Hp by done. eauto.
  - unfold PostsRouter.deletePost.
    destruct (posts st !! id) eqn:Hpost; [|exact Hvalid].
    destruct (_ && _); [exact Hvalid|].
    intros j p Hp. simpl in Hp.
    apply lookup_delete_Some in Hp as [_ Hp]. eauto.
Qed.

Lemma keep_when_comments_same (P : Comment.t → Prop) (st st' : Store) :
  comments st' = comments st →
  (∀ id c, comments st !! id = Some c → P c) →
  ∀ id c, comments st' !! id = Some c → P c.
Proof. intros -> H. exact H. Qed.

Lemma setContent_trimmed (s : string) (c : Comment.t) :
  JS.trim (Comment.content (Comment.setContent s c))
  = Comment.content (Comment.setContent s c).
Proof. apply trim_idem. Qed.

(** X17: A store in which every comment passes the schema (a content that is
    trimmed and not empty, an author name that is not empty) stays so
    through every route: what the handlers let through is stopped when
    the document is saved. *)
Theorem routes_keep_comments_valid :
  keptByRoutes (λ st st', commentsValid st → commentsValid st').
Proof.
  unfold keptByRoutes, commentsValid; split_and!; intros until st; intros Hvalid;
    try (apply (keep_when_comments_same _ st); [|exact Hvalid];
         unfold PostsRouter.listPosts, PostsRouter.getPost,
           PostsRouter.createPost, PostsRouter.updatePost, PostsRouter.savePost,
           PostsRouter.deletePost, CommentsRouter.listComments; by handler).
  - unfold CommentsRouter.createComment.
    destruct (_ || _); [exact Hvalid|].
    destruct (posts st !! _); [|exact Hvalid].
    destruct (Comment.validate _) eqn:Hv; [|exact Hvalid].
    case_bool_decide; [|exact Hvalid].
    intros j c Hc. simpl in Hc.
    destruct (decide (newId = j)) as [->|Hne].
    + rewrite lookup_insert_eq in Hc. injection Hc as <-.
      split; [exact Hv | apply setContent_trimmed].
    + rewrite lookup_insert_ne in Hc by done. eauto.
  - unfold CommentsRouter.updateComment, CommentsRouter.saveContent.
    destruct (comments st !! id) as [comment|] eqn:Hcomment; [|exact Hvalid].
    destruct (negb _); [exact Hvalid|].
    destruct content as [s|]; [|exact Hvalid].
    destruct (Comment.validate _) eqn:Hv; [|exact Hvalid].
    case_bool_decide; [exact Hvalid|].
    intros j c Hc. simpl in Hc.
    destruct (decide (id = j)) as [->|Hne].
    + rewrite lookup_insert_eq in Hc. injection Hc as <-.
      split; [exact Hv | apply trim_idem].
    + rewrite lookup_insert_ne in Hc by done. eauto.
  - unfold CommentsRouter.deleteComment.
    destruct (comments st !! id) eqn:Hcomment; [|exact Hvalid].
    destruct (_ && _); [exact Hvalid|].
    intros j c Hc. simpl in Hc.
    apply lookup_delete_Some in Hc as [_ Hc]. eauto.
Qed.

(** A store in which every post and every comment sits under its own
    [_id] stays so through every route. *)
Theorem routes_keep_documents_under_their_id :
  keptByRoutes (λ st st', keysMatch st → keysMatch st').
Proof.
  unfold keptByRoutes, keysMatch; split_and!; intros until st;
    intros [Hposts Hcomments];
    try (unfold PostsRouter.listPosts, PostsRouter.getPost,
           CommentsRouter.listComments; by handler).
  - split; [|unfold PostsRouter.createPost; by handler].
    unfold PostsRouter.createPost.
    destruct (_ || _); [exact Hposts|]. case_bool_decide; [|exact Hposts].
    intros j p Hp. simpl in Hp.
    apply lookup_insert_Some in Hp as [[<- <-]|[_ Hp]]; [done | eauto].
  - split.
    + unfold PostsRouter.updatePost.
      destruct (posts st !! id) as [post|] eqn:Hpost; [|exact Hposts].
      destruct (_ && _); [exact Hposts|].
      unfold PostsRouter.savePost. case_bool_decide; [exact Hposts|].
      intros j p Hp. simpl in Hp.
      apply lookup_insert_Some in Hp as [[<- <-]|[_ Hp]]; [|eauto].
      simpl. rewrite (proj1 (proj2 (proj2 (proj2
               (assignFields_fields title content file post))))). eauto.
    + unfold PostsRouter.updatePost, PostsRouter.savePost. by handler.
  - split.
    + unfold PostsRouter.deletePost.
      destruct (posts st !! id) eqn:Hpost; [|exact Hposts].
      destruct (_ && _); [exact Hposts|].
      intros j p Hp. simpl in Hp. apply lookup_delete_Some in Hp as [_ Hp]. eauto.
    + unfold PostsRouter.deletePost. by handler.
  - split; [by rewrite createComment_posts|].
    unfold CommentsRouter.createComment.
    destruct (_ || _); [exact Hcomments|].
    destruct (posts st !! _); [|exact Hcomments].
    destruct (_ && _) eqn:Hok; [|exact Hcomments].
    intros j c Hc. simpl in Hc.
    apply lookup_insert_Some in Hc as [[<- <-]|[_ Hc]]; [done | eauto].
  - split; [by rewrite updateComment_posts|].
    unfold CommentsRouter.updateComment, CommentsRouter.saveContent.
    destruct (comments st !! id) as [comment|] eqn:Hcomment; [|exact Hcomments].
    destruct (negb _); [exact Hcomments|].
    destruct content as [s|]; [|exact Hcomments].
    destruct (Comment.validate _); [|exact Hcomments].
    case_bool_decide; [exact Hcomments|].
    intros j c Hc. simpl in Hc.
    apply lookup_insert_Some in Hc as [[<- <-]|[_ Hc]]; [simpl; eauto | eauto].
  - split; [by rewrite deleteComment_posts|].
    unfold CommentsRouter.deleteComment.
    destruct (comments st !! id) eqn:Hcomment; [|exact Hcomments].
    destruct (_ && _); [exact Hcomments|].
    intros j c Hc. simpl in Hc. apply lookup_delete_Some in Hc as [_ Hc]. eauto.
Qed.

Ltac sample_posts H :=
  let Hin := fresh in
  match type of H with
  | posts ?st !! _ = Some ?p =>
      assert (Hin : p ∈ PostsRouter.findSorted st)
        by (apply elem_of_findSorted; eauto);
      vm_compute in Hin; set_unfold in Hin
  end.

Lemma routes_keep_posts_titled_witness :
  postsValid Sample.store ∧
  postsValid (PostsRouter.updatePost Sample.alice (Post._id Sample.hello)
                (Some "") (Some "Everyone") None 5000 Sample.store).2.
Proof.
  assert (Hv : postsValid Sample.store).
  { intros id p Hp. sample_posts Hp.
    destruct H as [->|[->|[]]]; split; discriminate. }
  split; [exact Hv|].
  exact (proj1 (proj2 (proj2 (proj2 routes_keep_posts_titled)))
           Sample.alice (Post._id Sample.hello) (Some "") (Some "Everyone") None
           5000%N Sample.store Hv).
Defined.

Lemma sample_comments (id : ObjectId) (c : Comment.t) :
  comments Sample.store !! id = Some c → c = Sample.remark.
Proof.
  intros H. apply elem_of_map_to_list in H. vm_compute in H. set_unfold in H.
  destruct H as [H|[]]. by injection H as _ ->.
Qed.

Lemma routes_keep_comments_valid_witness :
  commentsValid Sample.store ∧
  commentsValid (CommentsRouter.createComment Sample.alice (Some "  ")
                   (Some (Post._id Sample.hello)) "64b0f1a2c3d4e5f6010203c2" 4000
                   Sample.store).2.
Proof.
  assert (Hv : commentsValid Sample.store).
  { intros id c Hc. apply sample_comments in Hc as ->. by vm_compute. }
  split; [exact Hv|].
  exact (proj1 (proj2 (proj2 (proj2 (proj2 (proj2 (proj2
           routes_keep_comments_valid))))))
           Sample.alice (Some "  ") (Some (Post._id Sample.hello))
           "64b0f1a2c3d4e5f6010203c2" 4000%N Sample.store Hv).
Defined.

Lemma routes_keep_documents_under_their_id_witness :
  keysMatch Sample.store ∧
  keysMatch (PostsRouter.createPost Sample.bob (Some "News") (Some "Plenty")
               None "64b0f1a2c3d4e5f6010203a3" 4000 Sample.store).2.
Proof.
  assert (Hv : keysMatch Sample.store).
  { split.
    - intros id p Hp. apply elem_of_map_to_list in Hp. vm_compute in Hp.
      set_unfold in Hp. destruct Hp as [Hp|[Hp|[]]]; by injection Hp as -> ->.
    - intros id c Hc. apply elem_of_map_to_list in Hc. vm_compute in Hc.
      set_unfold in Hc. destruct Hc as [Hc|[]]. by injection Hc as -> ->. }
  split; [exact Hv|].
  exact (proj1 (proj2 (proj2 routes_keep_documents_under_their_id))
           Sample.bob (Some "News") (Some "Plenty") None
           "64b0f1a2c3d4e5f6010203a3" 4000%N Sample.store Hv).
Defined.

(** ** More on the bootstrap script *)

(** X20: With fewer than three arguments after the script name, or with an
    empty string for one of them, the script prints its usage, exits with
    code 1 and leaves the store as it was. *)
Theorem bootstrap_needs_three_arguments (hashPassword : string → string)
    (argv : list string) (newId : ObjectId) (st : Store) :
  length argv < 5 ∨ argv !! 2 = Some "" ∨ argv !! 3 = Some "" ∨
  argv !! 4 = Some "" →
  createAdmin hashPassword argv newId st =
    (mkExit 1 "Usage: node createAdmin.js <email> <username> <password>", st).
Proof.
  intros H.
  assert (He : JS.truthy (argv !! 2) = false ∨ JS.truthy (argv !! 3) = false ∨
               JS.truthy (argv !! 4) = false).
  { destruct H as [H|[H|[H|H]]]; try (rewrite H; auto).
    right. right. by rewrite (proj2 (lookup_ge_None argv 4)) by lia. }
  unfold createAdmin, JS.falsy.
  destruct He as [-> | [-> | ->]]; simpl; by rewrite ?orb_true_r.
Qed.

Lemma bootstrap_needs_three_arguments_witness :
  createAdmin Sample.hashPassword ["node"; "createAdmin.js"; "carol@example.org"; "carol"]
      "64b0f1a2c3d4e5f601020304" Sample.store
    = (mkExit 1 "Usage: node createAdmin.js <email> <username> <password>",
       Sample.store) ∧
  createAdmin Sample.hashPassword
      ["node"; "createAdmin.js"; "carol@example.org"; ""; "secret"]
      "64b0f1a2c3d4e5f601020304" Sample.store
    = (mkExit 1 "Usage: node createAdmin.js <email> <username> <password>",
       Sample.store).
Proof.
  split.
  - apply bootstrap_needs_three_arguments. left. simpl. lia.
  - apply bootstrap_needs_three_arguments. right. right. left. reflexivity.
Defined.

Lemma replaceUser_ids (u : User.t) (us : list User.t) :
  User._id <$> replaceUser u us = User._id <$> us.
Proof.
  unfold replaceUser. induction us as [|v us IH]; [done|].
  cbn [List.map]. rewrite !fmap_cons, IH. f_equal.
  by destruct (String.eqb_spec (User._id v) (User._id u)).
Qed.

Lemma replaceUser_identity (u : User.t) (us : list User.t) :
  NoDup (User._id <$> us) → u ∈ us →
  identity <$> replaceUser (promote u) us = identity <$> us.
Proof.
  intros Hnd Hu.
  assert (H : ∀ l, (∀ v, v ∈ l → v ∈ us) →
              identity <$> replaceUser (promote u) l = identity <$> l).
  { unfold replaceUser. induction l as [|v l IH]; intros Hl; [done|].
    cbn [List.map]. rewrite !fmap_cons, IH
      by (intros w Hw; apply Hl; by apply list_elem_of_further).
    f_equal. change (User._id (promote u)) with (User._id u).
    destruct (String.eqb_spec (User._id v) (User._id u)) as [Hid|]; [|done].
    by rewrite (unique_id us u v Hnd Hu (Hl v (list_elem_of_here _ _)) Hid). }
  by apply H.
Qed.

Lemma replaceUser_keeps_others (u w : User.t) (us : list User.t) :
  w ∈ us → User._id w ≠ User._id u → w ∈ replaceUser (promote u) us.
Proof.
  intros Hw Hne. unfold replaceUser. apply list_elem_of_In, List.in_map_iff.
  exists w. split; [|by apply list_elem_of_In].
  change (User._id (promote u)) with (User._id u).
  by rewrite (proj2 (String.eqb_neq _ _)).
Qed.

Lemma insertUser_Some (u : User.t) (us us' : list User.t) :
  insertUser u us = Some us' →
  us' = us ++ [u] ∧ User._id u ∉ User._id <$> us.
Proof.
  unfold insertUser. destruct (List.existsb _ us) eqn:Hex; [discriminate|].
  intros [= <-]. split; [done|]. intros Hin.
  apply list_elem_of_fmap in Hin as (v & Hid & Hv).
  assert (List.existsb (λ v, String.eqb (User._id v) (User._id u)
                            || String.eqb (User.email v) (User.email u)) us = true)
    as Hex'; [|congruence].
  apply List.existsb_exists. exists v. split; [by apply list_elem_of_In|].
  by rewrite <- Hid, String.eqb_refl.
Qed.

(** X21: Whatever its arguments, on a collection with unique identifiers the
    script deletes no user and changes no user's id, username, email or
    password (a password given for an existing user is ignored): apart
    from the roles, the users afterwards are the users before, followed
    by at most one new user.  Every user who was an admin still is, and
    the identifiers are still unique. *)
Theorem bootstrap_only_promotes_or_adds (hashPassword : string → string)
    (argv : list string) (newId : ObjectId) (st : Store) :
  NoDup (User._id <$> users st) →
  let st' := (createAdmin hashPassword argv newId st).2 in
  (∃ added, identity <$> users st' = (identity <$> users st) ++ added ∧
            length added ≤ 1) ∧
  (∀ u, u ∈ users st → User.role u = RoleAdmin → u ∈ users st') ∧
  NoDup (User._id <$> users st').
Proof.
  intros Hnd. cbv zeta.
  assert (Hsame :
    (∃ added, identity <$> users st = (identity <$> users st) ++ added ∧
              length added ≤ 1) ∧
    (∀ u, u ∈ users st → User.role u = RoleAdmin → u ∈ users st) ∧
    NoDup (User._id <$> users st)).
  { split; [exists []; rewrite app_nil_r; split; [done | simpl; lia]|]. done. }
  unfold createAdmin.
  destruct (_ || _); [exact Hsame|].
  destruct (findOne _ _ (users st)) as [u|] eqn:Hfind.
  - destruct (User.isAdmin u) eqn:Hadmin; [exact Hsame|]. clear Hsame.
    apply findOne_Some in Hfind as [Hu _]. simpl. split_and!.
    + exists []. rewrite app_nil_r.
      split; [by apply replaceUser_identity | simpl; lia].
    + intros w Hw Hrole. apply replaceUser_keeps_others; [done|].
      intros Hid. rewrite (unique_id _ u w Hnd Hu Hw Hid) in Hrole.
      unfold User.isAdmin in Hadmin. by rewrite bool_decide_eq_true_2 in Hadmin.
    + by rewrite replaceUser_ids.
  - destruct (insertUser _ (users st)) as [us'|] eqn:Hins; [|exact Hsame].
    clear Hsame. apply insertUser_Some in Hins as [-> Hfresh]. simpl. split_and!.
    + eexists [_]. rewrite fmap_app. split; [reflexivity | simpl; lia].
    + intros w Hw _. apply elem_of_app. by left.
    + rewrite fmap_app. apply NoDup_app. split; [done|]. split.
      * intros x Hx Hx'. simpl in Hx'. apply list_elem_of_singleton in Hx'.
        subst x. by apply Hfresh.
      * apply NoDup_singleton.
Qed.

Lemma bootstrap_only_promotes_or_adds_witness :
  let argv := ["node"; "createAdmin.js"; "other@example.org"; "bob"; "ignored"] in
  let st' := (createAdmin Sample.hashPassword argv "64b0f1a2c3d4e5f601020304"
                Sample.store).2 in
  NoDup (User._id <$> users Sample.store) ∧
  users st' = [Sample.alice; promote Sample.bob; Sample.root] ∧
  User.password (promote Sample.bob) = User.password Sample.bob ∧
  ∃ added, identity <$> users st' = (identity <$> users Sample.store) ++ added ∧
           length added ≤ 1.
Proof.
  intros argv st'.
  assert (Hnd : NoDup (User._id <$> users Sample.store)).
  { vm_compute. repeat (apply NoDup_cons; split; [set_unfold; intuition discriminate|]).
    apply NoDup_nil_2. }
  split; [exact Hnd|]. split; [reflexivity|]. split; [reflexivity|].
  exact (proj1 (bootstrap_only_promotes_or_adds Sample.hashPassword argv
                  "64b0f1a2c3d4e5f601020304" Sample.store Hnd)).
Defined.

(** ** The upload middleware *)

Lemma contains_unfold (w s : string) :
  JSRegExp.contains w s =
    String.prefix w s
    || match s with
       | EmptyString => false
       | String _ s' => JSRegExp.contains w s'
       end.
Proof. by destruct s. Qed.

(** [contains w s] holds exactly when [w] occurs in [s]. *)
Lemma contains_occurs (w s : string) :
  JSRegExp.contains w s = true ↔ ∃ before after, s = before +:+ w +:+ after.
Proof.
  induction s as [|c s IH]; rewrite contains_unfold, orb_true_iff, prefix_app.
  - split.
    + intros [[rest H]|[=]]. by exists "", rest.
    + intros (before & after & H). left. destruct before; [by exists after|].
      by rewrite append_cons in H.
  - rewrite IH. split.
    + intros [[rest H]|(before & after & H)]; [by exists "", rest|].
      exists (String c before), after. rewrite append_cons. congruence.
    + intros (before & after & H). destruct before as [|c' before].
      * left. by exists after.
      * right. exists before, after. rewrite append_cons in H. congruence.
Qed.

(** X22: The type filter accepts a file exactly when one of the words jpeg,
    jpg, png, gif occurs somewhere in its mimetype, as sent, and one of
    them occurs somewhere in the lower-cased extension of its original
    name; the words need not be the whole extension or the subtype.
    Every other file is rejected with the message "Only image files are
    allowed". *)
Theorem type_filter_is_a_containment_test (extname : string → string)
    (originalname mimetype : string) :
  (fileFilter extname originalname mimetype = Accept ↔
     (∃ w before after, w ∈ imageWords ∧ mimetype = before +:+ w +:+ after) ∧
     (∃ w before after, w ∈ imageWords ∧
        toLowerCase (extname originalname) = before +:+ w +:+ after)) ∧
  (fileFilter extname originalname mimetype ≠ Accept →
     fileFilter extname originalname mimetype
       = Reject "Only image files are allowed").
Proof.
  assert (Hallowed : ∀ s, JSRegExp.allowedTypes s = true ↔
            ∃ w before after, w ∈ imageWords ∧ s = before +:+ w +:+ after).
  { intros s. unfold JSRegExp.allowedTypes, imageWords.
    rewrite !orb_true_iff, !contains_occurs. split.
    - intros [[[H|H]|H]|H]; destruct H as (before & after & H);
        eexists _, before, after; (split; [|exact H]); set_solver.
    - intros (w & before & after & Hw & H). set_unfold in Hw.
      destruct Hw as [-> | [-> | [-> | [-> | []]]]]; eauto 10. }
  unfold fileFilter. rewrite <- !Hallowed.
  destruct (JSRegExp.allowedTypes mimetype),
           (JSRegExp.allowedTypes (toLowerCase (extname originalname)));
    simpl; split; try done; intuition discriminate.
Qed.

Lemma type_filter_is_a_containment_test_witness :
  fileFilter Sample.extname "holiday.PNGs" "application/x-gif-bundle" = Accept.
Proof.
  apply (proj1 (type_filter_is_a_containment_test Sample.extname "holiday.PNGs"
                  "application/x-gif-bundle")).
  split.
  - exists "gif", "application/x-", "-bundle". split; [|reflexivity].
    unfold imageWords. set_solver.
  - exists "png", ".", "s". split; [|reflexivity].
    unfold imageWords. set_solver.
Defined.

Lemma append_assoc (a b c : string) : (a +:+ b) +:+ c = a +:+ b +:+ c.
Proof. induction a; [done | rewrite !append_cons; congruence]. Qed.

Lemma append_cancel_l (a x y : string) : a +:+ x = a +:+ y → x = y.
Proof. induction a; [done | rewrite !append_cons; intros [=]; auto]. Qed.

Lemma append_cancel_r (e x y : string) : x +:+ e = y +:+ e → x = y.
Proof.
  intros H.
  assert (Hlen : String.length x = String.length y).
  { apply (f_equal String.length) in H. rewrite !length_append in H. lia. }
  revert y H Hlen. induction x as [|c x IH]; intros [|d y] H Hlen;
    try done; try discriminate.
  rewrite !append_cons in H. injection H as -> H. f_equal. apply IH; [done|].
  simpl in Hlen. lia.
Qed.

Lemma pretty_N_char_digit (x : N) : isDigit (pretty_N_char x) = true.
Proof. unfold pretty_N_char. by repeat case_match. Qed.

Lemma pretty_N_go_digits (x : N) (s : string) :
  allDigits s = true → allDigits (pretty_N_go x s) = true.
Proof.
  revert s. induction (N.lt_wf_0 x) as [x _ IH]; intros s Hs.
  assert (x = 0 ∨ 0 < x)%N as [->|Hx] by lia.
  - by rewrite pretty_N_go_0.
  - rewrite pretty_N_go_step by done. apply IH; [by apply N.div_lt|].
    simpl. by rewrite pretty_N_char_digit.
Qed.

(** A natural number is written with digits only. *)
Lemma pretty_N_digits (x : N) : allDigits (pretty x) = true.
Proof.
  unfold pretty, pretty_N. case_decide; [done|]. by apply pretty_N_go_digits.
Qed.

(** Two digit strings joined by a dash can be told apart again. *)
Lemma dash_split (a a' b b' : string) :
  allDigits a = true → allDigits a' = true →
  a +:+ "-" +:+ b = a' +:+ "-" +:+ b' → a = a' ∧ b = b'.
Proof.
  revert a'. induction a as [|c a IH]; intros [|c' a'] Ha Ha' H.
  - by injection H.
  - rewrite append_cons in H. injection H as <- _. by simpl in Ha'.
  - rewrite append_cons in H. injection H as -> _. by simpl in Ha.
  - rewrite !append_cons in H. injection H as -> H. simpl in Ha, Ha'.
    apply andb_true_iff in Ha as [_ Ha]. apply andb_true_iff in Ha' as [_ Ha'].
    destruct (IH a' Ha Ha' H) as [-> ->]. done.
Qed.

(** X23: Two uploads under the same field and with the same original name
    are stored under the same name, and so get the same image path in the
    post, only when they happen in the same millisecond with the same
    random draw: the time and the draw can be read back from the name. *)
Theorem upload_names_encode_time_and_draw (extname : string → string)
    (fieldname originalname : string) (now draw now' draw' : N) :
  PostsRouter.uploadPath (filename extname fieldname originalname now draw)
  = PostsRouter.uploadPath (filename extname fieldname originalname now' draw') →
  now = now' ∧ draw = draw'.
Proof.
  unfold PostsRouter.uploadPath, filename. intros H.
  apply append_cancel_l, append_cancel_l, append_cancel_l in H.
  apply append_cancel_r in H.
  apply dash_split in H as [H1 H2]; [|apply pretty_N_digits..].
  split; by apply (inj pretty).
Qed.

Lemma upload_names_encode_time_and_draw_witness :
  filename Sample.extname "image" "holiday.png" 1700000000000 123456789
    = "image-1700000000000-123456789.png" ∧
  (1700000000000 = 1700000000000 ∧ 123456789 = 123456789)%N.
Proof.
  split; [vm_compute; reflexivity|].
  exact (upload_names_encode_time_and_draw Sample.extname "image" "holiday.png"
           1700000000000 123456789 1700000000000 123456789 eq_refl).
Defined.

(** ** Refusals *)

(** X18: A request that a handler answers with anything but 200 or 201 (that
    is, with 400, 403, 404 or 500) leaves the whole store as it was. *)
Theorem refused_requests_write_nothing :
  answeredByRoutes (λ st out,
    status out.1 ≠ OK → status out.1 ≠ Created → out.2 = st).
Proof.
  unfold answeredByRoutes; split_and!; intros;
    unfold PostsRouter.listPosts, PostsRouter.getPost, PostsRouter.createPost,
      PostsRouter.updatePost, PostsRouter.savePost, PostsRouter.deletePost,
      CommentsRouter.listComments, CommentsRouter.createComment,
      CommentsRouter.updateComment, CommentsRouter.saveContent,
      CommentsRouter.deleteComment in *;
    repeat (case_match || case_bool_decide); simplify_eq/=; done.
Qed.

Lemma refused_requests_write_nothing_witness :
  status (PostsRouter.deletePost Sample.bob (Post._id Sample.hello)
            Sample.store).1 = Forbidden ∧
  (PostsRouter.deletePost Sample.bob (Post._id Sample.hello) Sample.store).2
    = Sample.store.
Proof.
  split; [reflexivity|].
  apply (proj1 (proj2 (proj2 (proj2 (proj2 refused_requests_write_nothing))))
           Sample.bob (Post._id Sample.hello) Sample.store); discriminate.
Defined.



Lemma routes_keep_comment_references_witness :
  comments Sample.store !! Comment._id Sample.remark = Some Sample.remark ∧
  ∃ c', comments (CommentsRouter.updateComment Sample.bob
                    (Comment._id Sample.remark) (Some "Better") 5000
                    Sample.store).2 !! Comment._id Sample.remark = Some c' ∧
        Comment.content c' = "Better" ∧
        Comment.post c' = Comment.post Sample.remark ∧
        Comment.author c' = Comment.author Sample.remark.
Proof.
  assert (H : comments Sample.store !! Comment._id Sample.remark = Some Sample.remark)
    by (vm_compute; reflexivity).
  split; [exact H|]. eexists. split; [vm_compute; reflexivity|].
  split; [reflexivity|].
  destruct (proj1 (proj2 (proj2 (proj2 (proj2 (proj2 (proj2 (proj2
              routes_keep_comment_references)))))))
              Sample.bob (Comment._id Sample.remark) (Some "Better") 5000%N
              Sample.store (Comment._id Sample.remark) Sample.remark _ H
              ltac:(vm_compute; reflexivity))
    as (_ & Hpost & Hauthor & _).
  split; [exact Hpost | exact Hauthor].
Defined.

(** ** The routes and the handlers behind the cast *)

(** On a postId that is written as the ObjectId it denotes, the route
    that creates a comment is the handler entered with that ObjectId. *)
Lemma createComment_on_ObjectId (castObjectId : string → option ObjectId)
    (user : User.t) (content postId : option string) (newId : ObjectId)
    (now : Date) (st : Store) :
  castObjectId (JS.str postId) = Some (JS.str postId) →
  Http.createComment castObjectId user content postId newId now st
  = CommentsRouter.createComment user content postId newId now st.
Proof.
  intros H. unfold Http.createComment, CommentsRouter.createComment.
  by rewrite H.
Qed.

(** A string that is not an ObjectId is answered 500 by every route that
    takes an identifier, and nothing is written. *)
Lemma routes_refuse_what_is_not_an_ObjectId
    (castObjectId : string → option ObjectId) (user : User.t) (id : string)
    (title content file : option string) (now : Date) (st : Store) :
  castObjectId id = None →
  Http.listComments castObjectId id st
    = (fail PersistenceError "Error fetching comments", st) ∧
  Http.updateComment castObjectId user id content now st
    = (fail PersistenceError "Error updating comment", st) ∧
  Http.deleteComment castObjectId user id st
    = (fail PersistenceError "Error deleting comment", st) ∧
  Http.getPost castObjectId user id st
    = (fail PersistenceError "Error fetching post", st) ∧
  Http.updatePost castObjectId user id title content file now st
    = (fail PersistenceError "Error updating post", st) ∧
  Http.deletePost castObjectId user id st
    = (fail PersistenceError "Error deleting post", st).
Proof.
  intros H. unfold Http.listComments, Http.updateComment, Http.deleteComment,
    Http.getPost, Http.updatePost, Http.deletePost. by rewrite H.
Qed.
